(** * The action-log application: audit records attached to arbitrary entities

    A shallow embedding of [action_logs/models.py], [action_logs/signals.py],
    [action_logs/mixins.py] and [action_logs/views.py].

    Python objects become records, the database becomes a [World] that every
    operation threads explicitly, and a Python exception becomes the [Raise]
    outcome of a computation in the monad [M].  The ORM calls that the source
    makes ([objects.create], [save], [delete], [filter], signal dispatch) are
    given the meaning the framework documents for the declarations found in
    the source ([on_delete], [GenericRelation], [ordering], [auto_now_add]).
    Strings are sequences of characters, one [ascii] per character. *)

From Stdlib Require Import ZArith String Ascii List Lia Bool.
From Stdlib Require Import Sorting.Sorted Sorting.Permutation DecimalString.
From stdpp Require Import base option list strings gmap.

Open Scope Z_scope.
Open Scope string_scope.
Open Scope list_scope.

(* ===================================================================== *)
(** ** Outcomes of a call *)
(* ===================================================================== *)

Inductive Exception :=
| ValueError
| TypeError
| AttributeError
| DoesNotExist
| DatabaseError
| Http404.

Inductive Result (A : Type) :=
| Ok (a : A)
| Raise (e : Exception).

Arguments Ok {A} a.
Arguments Raise {A} e.

#[global] Instance Exception_eq_dec : EqDecision Exception.
Proof. solve_decision. Defined.

(* ===================================================================== *)
(** ** Python text primitives used by the source *)
(* ===================================================================== *)

Definition dquote : string := String (ascii_of_nat 34) EmptyString.

(** [str(n)] for an integer. *)
Definition str_int (n : Z) : string := NilZero.string_of_int (Z.to_int n).

(** [s[:n]] *)
Fixpoint str_take (n : nat) (s : string) : string :=
  match n, s with
  | S n', String c r => String c (str_take n' r)
  | _, _ => EmptyString
  end.

Definition ascii_upper (c : ascii) : ascii :=
  let n := nat_of_ascii c in
  if (Nat.leb 97 n && Nat.leb n 122)%bool then ascii_of_nat (n - 32) else c.

Definition ascii_lower (c : ascii) : ascii :=
  let n := nat_of_ascii c in
  if (Nat.leb 65 n && Nat.leb n 90)%bool then ascii_of_nat (n + 32) else c.

Fixpoint str_map (f : ascii -> ascii) (s : string) : string :=
  match s with
  | EmptyString => EmptyString
  | String c r => String (f c) (str_map f r)
  end.

(** [s.capitalize()]: first character upper case, the others lower case. *)
Definition capitalize (s : string) : string :=
  match s with
  | EmptyString => EmptyString
  | String c r => String (ascii_upper c) (str_map ascii_lower r)
  end.

(** [s.split(sep)] for a separator of one character: never the empty list. *)
Fixpoint str_split (sep : ascii) (s : string) : list string :=
  match s with
  | EmptyString => [EmptyString]
  | String c r =>
      if Ascii.eqb c sep then EmptyString :: str_split sep r
      else match str_split sep r with
           | [] => [String c EmptyString]
           | piece :: pieces => String c piece :: pieces
           end
  end.

(** [l[0]] of a list of strings; [IndexError] cannot arise on the result of
    [split], whose first element always exists. *)
Definition item0 (l : list string) : string :=
  match l with
  | [] => EmptyString
  | x :: _ => x
  end.

(** *** [int(text)]

    Decimal text as [int] accepts it: surrounding white space, an optional
    sign, digits, and single underscores between digits.  Anything else is a
    [ValueError], here [None]. *)

Definition is_space (c : ascii) : bool :=
  let n := nat_of_ascii c in
  ((Nat.leb 9 n && Nat.leb n 13) || (Nat.leb 28 n && Nat.leb n 32))%bool.

Fixpoint lstrip (s : string) : string :=
  match s with
  | EmptyString => EmptyString
  | String c r => if is_space c then lstrip r else s
  end.

Fixpoint str_rev_onto (s acc : string) : string :=
  match s with
  | EmptyString => acc
  | String c r => str_rev_onto r (String c acc)
  end.

Definition str_rev (s : string) : string := str_rev_onto s EmptyString.

Definition strip (s : string) : string := str_rev (lstrip (str_rev (lstrip s))).

Definition digit_value (c : ascii) : option Z :=
  let n := nat_of_ascii c in
  if (Nat.leb 48 n && Nat.leb n 57)%bool then Some (Z.of_nat (n - 48)) else None.

(** The digits after the first one: [acc] is the value read so far. *)
Fixpoint more_digits (acc : Z) (s : string) : option Z :=
  match s with
  | EmptyString => Some acc
  | String c r =>
      match digit_value c with
      | Some d => more_digits (10 * acc + d) r
      | None =>
          if Ascii.eqb c "_" then
            match r with
            | String c' r' =>
                match digit_value c' with
                | Some d => more_digits (10 * acc + d) r'
                | None => None
                end
            | EmptyString => None
            end
          else None
      end
  end.

Definition unsigned_int_of_str (s : string) : option Z :=
  match s with
  | String c r =>
      match digit_value c with
      | Some d => more_digits d r
      | None => None
      end
  | EmptyString => None
  end.

Definition int_of_str (s : string) : option Z :=
  match strip s with
  | String "-" r => Z.opp <$> unsigned_int_of_str r
  | String "+" r => unsigned_int_of_str r
  | t => unsigned_int_of_str t
  end.

(** The values [int] is applied to in the source: a query-string value, an
    integer class attribute, or [None]. *)
Inductive PyValue :=
| PyStr (s : string)
| PyInt (n : Z)
| PyNone.

Definition int (v : PyValue) : Result Z :=
  match v with
  | PyStr s => match int_of_str s with
               | Some n => Ok n
               | None => Raise ValueError
               end
  | PyInt n => Ok n
  | PyNone => Raise TypeError
  end.

#[global] Instance PyValue_eq_dec : EqDecision PyValue.
Proof. solve_decision. Defined.

(** Truth value of a text-or-integer value ([x or y], [if x:]). *)
Definition truthy (v : PyValue) : bool :=
  match v with
  | PyStr s => negb (String.eqb s EmptyString)
  | PyInt n => negb (Z.eqb n 0)
  | PyNone => false
  end.



(* ===================================================================== *)
(** ** Requests *)
(* ===================================================================== *)

(** [request.META] is a plain dictionary; [request.GET] is a [QueryDict],
    which keeps every value given for a key and answers [get] with the last. *)
Record HttpRequest := {
  META : gmap string string;
  GET : gmap string (list string);
  request_user : option Z;          (* [None]: not authenticated *)
  request_method : string;
  request_path : string
}.

Definition QueryDict_get (q : gmap string (list string)) (key : string) : option string :=
  match q !! key with
  | Some vals => last vals
  | None => None
  end.

(* ===================================================================== *)
(** ** models.py: the data model *)
(* ===================================================================== *)

(** The model classes.  A [ContentType] row stands for exactly one model
    class, so a content type is identified with the class it stands for. *)
Inductive ModelClass :=
| UserModel
| BlogModel
| CommentModel
| UserProfileModel
| ActionLogModel
| ContentTypeModel
| OtherModel (name : string).

#[global] Instance ModelClass_eq_dec : EqDecision ModelClass.
Proof. solve_decision. Defined.

(** [model_class.__name__] *)
Definition class_name (m : ModelClass) : string :=
  match m with
  | UserModel => "User"
  | BlogModel => "Blog"
  | CommentModel => "Comment"
  | UserProfileModel => "UserProfile"
  | ActionLogModel => "ActionLog"
  | ContentTypeModel => "ContentType"
  | OtherModel name => name
  end.

(** [django.contrib.auth.models.User], as far as the application reads it. *)
Record User := {
  user_pk : option Z;
  username : string
}.

(** [class ActionLog(models.Model)].  [log_id] is the [uuid4] primary key,
    [log_user] the [user] foreign key ([on_delete=SET_NULL]), and
    [content_type] with [object_id] the two halves of [content_object]. *)
Record ActionLog := {
  log_id : Z;
  action_type : string;
  timestamp : Z;
  log_user : option Z;
  content_type : option ModelClass;
  object_id : option string;
  description : string;
  ip_address : option string;
  user_agent : string
}.

(** [class Blog(LoggedModel)]; the two time stamps and the tags, which no
    logging code reads, are left out. *)
Record Blog := {
  blog_pk : option Z;
  title : string;
  content : string;
  blog_author : Z;
  is_published : bool
}.

(** [class Comment(LoggedModel)], without its two time stamps. *)
Record Comment := {
  comment_pk : option Z;
  comment_blog : Z;
  comment_author : Z;
  text : string;
  is_active : bool
}.

(** [class UserProfile(LoggedModel)]; the avatar, birth date and social
    links, which no logging code reads, are left out. *)
Record UserProfile := {
  profile_pk : option Z;
  profile_user : Z;
  bio : string;
  website : string;
  location : string
}.

(** An instance of a model class defined outside the application, as far as
    the generic receivers look at it: which of the attributes [author],
    [user], [created_by] and [action_logs] it has ([None]: no such
    attribute), and its [str]. *)
Record OtherInstance := {
  other_class : string;
  other_pk : option Z;
  other_author : option (option Z);
  other_user : option (option Z);
  other_created_by : option (option Z);
  other_has_action_logs : bool;
  other_str : string
}.

(** A model instance other than an [ActionLog] row. *)
Inductive Instance :=
| IUser (u : User)
| IBlog (b : Blog)
| IComment (c : Comment)
| IUserProfile (p : UserProfile)
| IOther (o : OtherInstance).

(** What [post_save] carries as [instance]. *)
Inductive Saved :=
| an_ActionLog (l : ActionLog)
| an_instance (i : Instance).

(** [type(instance)] *)
Definition class_of (i : Instance) : ModelClass :=
  match i with
  | IUser _ => UserModel
  | IBlog _ => BlogModel
  | IComment _ => CommentModel
  | IUserProfile _ => UserProfileModel
  | IOther o => OtherModel (other_class o)
  end.

(** [instance.pk] *)
Definition pk_of (i : Instance) : option Z :=
  match i with
  | IUser u => user_pk u
  | IBlog b => blog_pk b
  | IComment c => comment_pk c
  | IUserProfile p => profile_pk p
  | IOther o => other_pk o
  end.

(** What assigning [content_object = obj] stores: the content type of the
    object's class and its primary key, which the [CharField] [object_id]
    keeps as text. *)
Definition content_object_fields (obj : option Instance)
  : option ModelClass * option string :=
  match obj with
  | None => (None, None)
  | Some i => (Some (class_of i), str_int <$> pk_of i)
  end.

(** [hasattr(instance, 'author')], [hasattr(instance, 'user')],
    [hasattr(instance, 'created_by')], with the value when present.  [User]
    has none of the three. *)
Definition attr_author (i : Instance) : option (option Z) :=
  match i with
  | IBlog b => Some (Some (blog_author b))
  | IComment c => Some (Some (comment_author c))
  | IOther o => other_author o
  | _ => None
  end.

Definition attr_user (i : Instance) : option (option Z) :=
  match i with
  | IUserProfile p => Some (Some (profile_user p))
  | IOther o => other_user o
  | _ => None
  end.

Definition attr_created_by (i : Instance) : option (option Z) :=
  match i with
  | IOther o => other_created_by o
  | _ => None
  end.

(** [hasattr(instance, 'action_logs')]: the [GenericRelation] of
    [LoggedModel], and on [User] the reverse side of [ActionLog.user]
    ([related_name='action_logs']). *)
Definition has_action_logs (i : Saved) : bool :=
  match i with
  | an_ActionLog _ => false
  | an_instance (IOther o) => other_has_action_logs o
  | an_instance _ => true
  end.

(** [LoggedModel.action_logs = GenericRelation(ActionLog, ...)] is declared
    on the abstract base of [Blog], [Comment] and [UserProfile]. *)
Definition has_GenericRelation (m : ModelClass) : bool :=
  match m with
  | BlogModel | CommentModel | UserProfileModel => true
  | _ => false
  end.

(* ===================================================================== *)
(** ** The world a call runs in *)
(* ===================================================================== *)

(** The five tables, the receivers connected after start-up, the clock read
    by [auto_now_add] and [auto_now], the source of [uuid4] keys, the lines
    written with [logger.error], and [writes_left]: how many more [INSERT] or
    [UPDATE] statements the action-log table accepts before the database
    answers the next one with an error ([None]: it never does). *)
Record World := {
  auth_user : list User;
  blog_table : list Blog;
  comment_table : list Comment;
  userprofile_table : list UserProfile;
  actionlog_table : list ActionLog;
  connected : list ModelClass;
  clock : Z;
  uuid4_next : Z;
  writes_left : option nat;
  logger_errors : list Exception
}.

Definition set_auth_user (f : list User -> list User) (w : World) : World :=
  {| auth_user := f (auth_user w); blog_table := blog_table w;
     comment_table := comment_table w; userprofile_table := userprofile_table w;
     actionlog_table := actionlog_table w; connected := connected w;
     clock := clock w; uuid4_next := uuid4_next w;
     writes_left := writes_left w; logger_errors := logger_errors w |}.

Definition set_blog_table (f : list Blog -> list Blog) (w : World) : World :=
  {| auth_user := auth_user w; blog_table := f (blog_table w);
     comment_table := comment_table w; userprofile_table := userprofile_table w;
     actionlog_table := actionlog_table w; connected := connected w;
     clock := clock w; uuid4_next := uuid4_next w;
     writes_left := writes_left w; logger_errors := logger_errors w |}.

Definition set_comment_table (f : list Comment -> list Comment) (w : World) : World :=
  {| auth_user := auth_user w; blog_table := blog_table w;
     comment_table := f (comment_table w); userprofile_table := userprofile_table w;
     actionlog_table := actionlog_table w; connected := connected w;
     clock := clock w; uuid4_next := uuid4_next w;
     writes_left := writes_left w; logger_errors := logger_errors w |}.

Definition set_userprofile_table (f : list UserProfile -> list UserProfile) (w : World) : World :=
  {| auth_user := auth_user w; blog_table := blog_table w;
     comment_table := comment_table w; userprofile_table := f (userprofile_table w);
     actionlog_table := actionlog_table w; connected := connected w;
     clock := clock w; uuid4_next := uuid4_next w;
     writes_left := writes_left w; logger_errors := logger_errors w |}.

Definition set_actionlog_table (f : list ActionLog -> list ActionLog) (w : World) : World :=
  {| auth_user := auth_user w; blog_table := blog_table w;
     comment_table := comment_table w; userprofile_table := userprofile_table w;
     actionlog_table := f (actionlog_table w); connected := connected w;
     clock := clock w; uuid4_next := uuid4_next w;
     writes_left := writes_left w; logger_errors := logger_errors w |}.

Definition set_connected (f : list ModelClass -> list ModelClass) (w : World) : World :=
  {| auth_user := auth_user w; blog_table := blog_table w;
     comment_table := comment_table w; userprofile_table := userprofile_table w;
     actionlog_table := actionlog_table w; connected := f (connected w);
     clock := clock w; uuid4_next := uuid4_next w;
     writes_left := writes_left w; logger_errors := logger_errors w |}.

Definition set_uuid4_next (n : Z) (w : World) : World :=
  {| auth_user := auth_user w; blog_table := blog_table w;
     comment_table := comment_table w; userprofile_table := userprofile_table w;
     actionlog_table := actionlog_table w; connected := connected w;
     clock := clock w; uuid4_next := n;
     writes_left := writes_left w; logger_errors := logger_errors w |}.

Definition set_writes_left (n : option nat) (w : World) : World :=
  {| auth_user := auth_user w; blog_table := blog_table w;
     comment_table := comment_table w; userprofile_table := userprofile_table w;
     actionlog_table := actionlog_table w; connected := connected w;
     clock := clock w; uuid4_next := uuid4_next w;
     writes_left := n; logger_errors := logger_errors w |}.

Definition add_logger_error (e : Exception) (w : World) : World :=
  {| auth_user := auth_user w; blog_table := blog_table w;
     comment_table := comment_table w; userprofile_table := userprofile_table w;
     actionlog_table := actionlog_table w; connected := connected w;
     clock := clock w; uuid4_next := uuid4_next w;
     writes_left := writes_left w; logger_errors := logger_errors w ++ [e] |}.

(** *** Computations: a result or an exception, and the world left behind *)

Definition M (A : Type) : Type := World -> Result A * World.

Definition ret {A} (a : A) : M A := fun w => (Ok a, w).

Definition bind {A B} (m : M A) (k : A -> M B) : M B :=
  fun w => match m w with
           | (Ok a, w') => k a w'
           | (Raise e, w') => (Raise e, w')
           end.

Definition raise {A} (e : Exception) : M A := fun w => (Raise e, w).

(** [try: m  except Exception as e: handler(e)] *)
Definition try_except {A} (m : M A) (handler : Exception -> M A) : M A :=
  fun w => match m w with
           | (Ok a, w') => (Ok a, w')
           | (Raise e, w') => handler e w'
           end.

(** [with transaction.atomic(): m]: an exception leaves the tables as they
    were on entry. *)
Definition rollback (entry now : World) : World :=
  {| auth_user := auth_user entry; blog_table := blog_table entry;
     comment_table := comment_table entry;
     userprofile_table := userprofile_table entry;
     actionlog_table := actionlog_table entry; connected := connected now;
     clock := clock now; uuid4_next := uuid4_next now;
     writes_left := writes_left now; logger_errors := logger_errors now |}.

Definition atomic {A} (m : M A) : M A :=
  fun w => match m w with
           | (Ok a, w') => (Ok a, w')
           | (Raise e, w') => (Raise e, rollback w w')
           end.

Definition gets {A} (f : World -> A) : M A := fun w => (Ok (f w), w).

Definition modify (f : World -> World) : M unit := fun w => (Ok tt, f w).

Notation "'let*' x ':=' m 'in' k" := (bind m (fun x => k))
  (at level 10, x name, m at level 100, k at level 200).

Notation "m >> k" := (bind m (fun _ => k))
  (at level 61, left associativity).

(** [for x in xs: body(x)] *)
Fixpoint for_each {A} (xs : list A) (body : A -> M unit) : M unit :=
  match xs with
  | [] => ret tt
  | x :: rest => body x >> for_each rest body
  end.

Definition world_of {A} (r : Result A * World) : World := snd r.
Definition outcome {A} (r : Result A * World) : Result A := fst r.

(* ===================================================================== *)
(** ** Tables *)
(* ===================================================================== *)

Section Table.
Context {R : Type} (pk : R -> option Z).

Definition has_pk (k : Z) (r : R) : bool := bool_decide (pk r = Some k).

Definition row_exists (k : Z) (table : list R) : bool := existsb (has_pk k) table.

(** The key an [AutoField] gives to a row inserted without one. *)
Definition fresh_pk (table : list R) : Z :=
  1 + fold_right (fun r acc => Z.max (default 0 (pk r)) acc) 0 table.

Definition replace_row (k : Z) (new : R) (table : list R) : list R :=
  map (fun r => if has_pk k r then new else r) table.

Definition delete_row (k : Z) (table : list R) : list R :=
  List.filter (fun r => negb (has_pk k r)) table.

(** What [Model.save] does to the table of the instance: an instance without
    a key is inserted under a fresh one; one with a key overwrites the row of
    that key, or is inserted when there is no such row.  The result is the
    instance as saved, whether a row was created, and the table. *)
Definition save_table (set_pk : Z -> R -> R) (self : R) (table : list R)
  : R * bool * list R :=
  match pk self with
  | None =>
      let self' := set_pk (fresh_pk table) self in
      (self', true, table ++ [self'])
  | Some k =>
      if row_exists k table then (self, false, replace_row k self table)
      else (self, true, table ++ [self])
  end.

End Table.

Definition set_user_pk (k : Z) (u : User) : User :=
  {| user_pk := Some k; username := username u |}.

Definition set_blog_pk (k : Z) (b : Blog) : Blog :=
  {| blog_pk := Some k; title := title b; content := content b;
     blog_author := blog_author b; is_published := is_published b |}.

Definition set_comment_pk (k : Z) (c : Comment) : Comment :=
  {| comment_pk := Some k; comment_blog := comment_blog c;
     comment_author := comment_author c; text := text c; is_active := is_active c |}.

Definition set_profile_pk (k : Z) (p : UserProfile) : UserProfile :=
  {| profile_pk := Some k; profile_user := profile_user p; bio := bio p;
     website := website p; location := location p |}.

(** [log.content_object = obj] *)
Definition set_content_object (obj : Instance) (log : ActionLog) : ActionLog :=
  {| log_id := log_id log; action_type := action_type log;
     timestamp := timestamp log; log_user := log_user log;
     content_type := fst (content_object_fields (Some obj));
     object_id := snd (content_object_fields (Some obj));
     description := description log; ip_address := ip_address log;
     user_agent := user_agent log |}.

(** The effect of [on_delete=SET_NULL] on one record. *)
Definition clear_user (log : ActionLog) : ActionLog :=
  {| log_id := log_id log; action_type := action_type log;
     timestamp := timestamp log; log_user := None;
     content_type := content_type log; object_id := object_id log;
     description := description log; ip_address := ip_address log;
     user_agent := user_agent log |}.

(** The record points at the instance of class [m] with key [k]. *)
Definition targets (m : ModelClass) (k : Z) (log : ActionLog) : bool :=
  bool_decide (content_type log = Some m)
  && bool_decide (object_id log = Some (str_int k)).

(** Following a foreign key: [comment.blog], [profile.user]. *)
Definition fetch_user (k : Z) : M User :=
  fun w => match List.find (has_pk user_pk k) (auth_user w) with
           | Some u => (Ok u, w)
           | None => (Raise DoesNotExist, w)
           end.

Definition fetch_blog (k : Z) : M Blog :=
  fun w => match List.find (has_pk blog_pk k) (blog_table w) with
           | Some b => (Ok b, w)
           | None => (Raise DoesNotExist, w)
           end.

(** One [INSERT] or [UPDATE] on the action-log table. *)
Definition actionlog_write : M unit :=
  fun w => match writes_left w with
           | Some O => (Raise DatabaseError, w)
           | Some (S n) => (Ok tt, set_writes_left (Some n) w)
           | None => (Ok tt, w)
           end.

(** [uuid.uuid4()]: a key not handed out before. *)
Definition uuid4 : M Z :=
  fun w => (Ok (uuid4_next w), set_uuid4_next (uuid4_next w + 1) w).

(** [timezone.now()] *)
Definition timezone_now : M Z := gets clock.

(* ===================================================================== *)
(** ** signals.py, first part: the receiver connected for every sender *)
(* ===================================================================== *)

Definition ignored_models : list ModelClass := [ActionLogModel; ContentTypeModel].

(** [@receiver(post_save) def universal_log_save(sender, instance, created)]:
    two early returns and nothing after them. *)
Definition universal_log_save (sender : ModelClass) (instance : Saved)
  (created : bool) : M unit :=
  if bool_decide (sender ∈ ignored_models) then ret tt
  else if has_action_logs instance then ret tt
  else ret tt.

(* ===================================================================== *)
(** ** Query sets over the action-log table *)
(* ===================================================================== *)

Module QuerySet.

Inductive Field := timestamp_field | id_field.

(** One entry of an [ordering] list: ['field'] or ['-field']. *)
Inductive OrderTerm := Asc (f : Field) | Desc (f : Field).

(** A query not yet run: the rows it selects and its [ORDER BY] terms. *)
Record t := {
  rows : list ActionLog;
  ordering : list OrderTerm
}.

Definition field_value (f : Field) (log : ActionLog) : Z :=
  match f with
  | timestamp_field => timestamp log
  | id_field => log_id log
  end.

Definition compare_term (term : OrderTerm) (a b : ActionLog) : comparison :=
  match term with
  | Asc f => Z.compare (field_value f a) (field_value f b)
  | Desc f => Z.compare (field_value f b) (field_value f a)
  end.

Fixpoint compare_by (terms : list OrderTerm) (a b : ActionLog) : comparison :=
  match terms with
  | [] => Eq
  | term :: rest =>
      match compare_term term a b with
      | Eq => compare_by rest a b
      | c => c
      end
  end.

(** [a] may come before [b]. *)
Definition may_precede (terms : list OrderTerm) (a b : ActionLog) : Prop :=
  compare_by terms a b <> Gt.

(** The lists the database may answer the query with: the selected rows,
    arranged so that the [ORDER BY] terms are respected.  Rows that the terms
    do not tell apart may come in either order. *)
Definition answers (q : t) (l : list ActionLog) : Prop :=
  Permutation (rows q) l /\ Sorted (may_precede (ordering q)) l.

(** [q.filter(...)] *)
Definition filter (p : ActionLog -> bool) (q : t) : t :=
  {| rows := List.filter p (rows q); ordering := ordering q |}.

(** [q[:limit]] *)
Definition sliced_answers (limit : nat) (q : t) (l : list ActionLog) : Prop :=
  exists full, answers q full /\ l = take limit full.

(** One of the answers, computed: the rows inserted one by one at their place. *)
Fixpoint place (terms : list OrderTerm) (a : ActionLog) (l : list ActionLog)
  : list ActionLog :=
  match l with
  | [] => [a]
  | b :: rest =>
      match compare_by terms a b with
      | Gt => b :: place terms a rest
      | _ => a :: b :: rest
      end
  end.

Definition fetch (q : t) : list ActionLog :=
  fold_right (place (ordering q)) [] (rows q).

End QuerySet.

(* ===================================================================== *)
(** ** models.py: [ActionLog] *)
(* ===================================================================== *)

Module ActionLog.

(** [ordering = ['-timestamp']] *)
Module Meta.
Definition ordering : list QuerySet.OrderTerm := [QuerySet.Desc QuerySet.timestamp_field].
End Meta.

Module objects.

(** [ActionLog.objects.all()], under the default ordering of [Meta]. *)
Definition all (w : World) : QuerySet.t :=
  {| QuerySet.rows := actionlog_table w; QuerySet.ordering := Meta.ordering |}.

(** [ActionLog.objects.filter(content_type=..., object_id=...)] *)
Definition filter (p : ActionLog -> bool) (w : World) : QuerySet.t :=
  QuerySet.filter p (all w).

(** [ActionLog.objects.create(...)]: the key and the time stamp are filled
    in, the row is inserted, and [post_save] is sent with [ActionLog] as the
    sender, which of the receivers of signals.py reaches only
    [universal_log_save]. *)
Definition create (action_type : string) (user : option Z)
  (content_object : option Instance) (description : string)
  (ip_address : option string) (user_agent : string) : M ActionLog :=
  let* id := uuid4 in
  let* now := timezone_now in
  let log := {| log_id := id; action_type := action_type; timestamp := now;
                log_user := user;
                content_type := fst (content_object_fields content_object);
                object_id := snd (content_object_fields content_object);
                description := description; ip_address := ip_address;
                user_agent := user_agent |} in
  actionlog_write >>
  modify (set_actionlog_table (fun t => t ++ [log])) >>
  universal_log_save ActionLogModel (an_ActionLog log) true >>
  ret log.

(** What the caller passed as [content_type=]. *)
Inductive content_type_arg :=
| no_content_type
| a_ContentType (m : ModelClass)
| a_model_class (m : ModelClass).

(** [ActionLog.objects.create] called with keywords: the field values are
    given one by one, and [unexpected] lists the keywords that name no
    field.  The constructor refuses a [content_type] that is not a
    [ContentType] instance with [ValueError], and keywords that name no field
    with [TypeError]. *)
Definition create_kwargs (action_type : string) (user : option Z)
  (content_type : content_type_arg) (object_id : option string)
  (ip_address : option string) (user_agent : string)
  (unexpected : list string) : M ActionLog :=
  match content_type with
  | a_model_class _ => raise ValueError
  | _ =>
      match unexpected with
      | _ :: _ => raise TypeError
      | [] =>
          let* id := uuid4 in
          let* now := timezone_now in
          let log := {| log_id := id; action_type := action_type;
                        timestamp := now; log_user := user;
                        content_type := match content_type with
                                        | a_ContentType m => Some m
                                        | _ => None
                                        end;
                        object_id := object_id;
                        description := EmptyString; ip_address := ip_address;
                        user_agent := user_agent |} in
          actionlog_write >>
          modify (set_actionlog_table (fun t => t ++ [log])) >>
          universal_log_save ActionLogModel (an_ActionLog log) true >>
          ret log
      end
  end.

End objects.

Definition same_id (id : Z) (log : ActionLog) : bool := Z.eqb (log_id log) id.

(** [log.save()]: the row with the key of [log] is overwritten, or inserted
    when there is none. *)
Definition save (self : ActionLog) : M unit :=
  actionlog_write >>
  let* present := gets (fun w => existsb (same_id (log_id self)) (actionlog_table w)) in
  (if present
   then modify (set_actionlog_table
                  (map (fun l => if same_id (log_id self) l then self else l)))
   else modify (set_actionlog_table (fun t => t ++ [self]))) >>
  universal_log_save ActionLogModel (an_ActionLog self) (negb present).

(** [ActionLog.log_action(user, action_type, obj=None, description='',
    ip_address=None, user_agent='')] *)
Definition log_action (user : option Z) (action_type : string)
  (obj : option Instance) (description : string)
  (ip_address : option string) (user_agent : string) : M ActionLog :=
  let* log := objects.create action_type user None description ip_address user_agent in
  match obj with
  | Some o =>
      let log' := set_content_object o log in
      save log' >> ret log'
  | None => ret log
  end.

End ActionLog.

(* ===================================================================== *)
(** ** models.py: [LoggedModel] *)
(* ===================================================================== *)

Module LoggedModel.

(** [self.action_logs.all()], the manager of the [GenericRelation]: the
    records whose content type and object id are those of [self]. *)
Definition get_action_logs (self : Instance) (w : World) : QuerySet.t :=
  ActionLog.objects.filter
    (fun log => bool_decide (content_type log = Some (class_of self))
                && bool_decide (object_id log = (str_int <$> pk_of self)))
    w.


(** [self.log_action(user, action_type, description='', ip_address=None,
    user_agent='')] *)
Definition log_action (self : Instance) (user : option Z) (action_type : string)
  (description : string) (ip_address : option string) (user_agent : string)
  : M ActionLog :=
  ActionLog.log_action user action_type (Some self) description ip_address user_agent.

End LoggedModel.

(* ===================================================================== *)
(** ** signals.py *)
(* ===================================================================== *)

(** [str(instance)]: [User.__str__] is the user name, the other three are
    the [__str__] methods of models.py. *)
Definition str_of (i : Instance) : M string :=
  match i with
  | IUser u => ret (username u)
  | IBlog b => ret (title b)
  | IComment c =>
      let* author := fetch_user (comment_author c) in
      let* blog := fetch_blog (comment_blog c) in
      ret ("Коментар від " +:+ username author +:+ " до " +:+ dquote
             +:+ title blog +:+ dquote)
  | IUserProfile p =>
      let* user := fetch_user (profile_user p) in
      ret ("Профіль " +:+ username user)
  | IOther o => ret (other_str o)
  end.

(** ['create' if created else 'update'] *)
Definition create_or_update (created : bool) : string :=
  if created then "create" else "update".

(** [@receiver(post_save, sender=User)] *)
Definition log_user_save (sender : ModelClass) (instance : Instance)
  (created : bool) : M unit :=
  match instance with
  | IUser u =>
      let action_type := create_or_update created in
      ActionLog.objects.create action_type (user_pk u) (Some instance)
        (capitalize action_type +:+ " користувача: " +:+ username u)
        None EmptyString >>
      ret tt
  | _ => raise AttributeError
  end.

(** [@receiver(post_save, sender=UserProfile)] *)
Definition log_profile_save (sender : ModelClass) (instance : Instance)
  (created : bool) : M unit :=
  match instance with
  | IUserProfile p =>
      let action_type := create_or_update created in
      let* user := fetch_user (profile_user p) in
      ActionLog.objects.create action_type (user_pk user) (Some instance)
        (capitalize action_type +:+ " профілю " +:+ username user)
        None EmptyString >>
      ret tt
  | _ => raise AttributeError
  end.

(** [@receiver(post_save, sender=Blog)] *)
Definition log_blog_save (sender : ModelClass) (instance : Instance)
  (created : bool) : M unit :=
  if created then ret tt
  else match instance with
       | IBlog b =>
           LoggedModel.log_action instance (Some (blog_author b)) "update"
             ("Оновлено блог: " +:+ title b) None EmptyString >>
           ret tt
       | _ => raise AttributeError
       end.

(** [@receiver(post_delete, sender=Blog)] *)
Definition log_blog_delete (sender : ModelClass) (instance : Instance)
  (_ : unit) : M unit :=
  match instance with
  | IBlog b =>
      ActionLog.objects.create "delete" (Some (blog_author b)) None
        ("Видалено блог: " +:+ title b) None EmptyString >>
      ret tt
  | _ => raise AttributeError
  end.

(** [@receiver(post_save, sender=Comment)] *)
Definition log_comment_save (sender : ModelClass) (instance : Instance)
  (created : bool) : M unit :=
  if created then ret tt
  else match instance with
       | IComment c =>
           let* blog := fetch_blog (comment_blog c) in
           LoggedModel.log_action instance (Some (comment_author c)) "update"
             ("Оновлено коментар до " +:+ dquote +:+ title blog +:+ dquote)
             None EmptyString >>
           ret tt
       | _ => raise AttributeError
       end.

(** [@receiver(post_delete, sender=Comment)] *)
Definition log_comment_delete (sender : ModelClass) (instance : Instance)
  (_ : unit) : M unit :=
  match instance with
  | IComment c =>
      let* blog := fetch_blog (comment_blog c) in
      ActionLog.objects.create "delete" (Some (comment_author c)) None
        ("Видалено коментар до " +:+ dquote +:+ title blog +:+ dquote)
        None EmptyString >>
      ret tt
  | _ => raise AttributeError
  end.

(** The actor chosen in [log_model_save]: the first attribute the instance
    has among [author], [user] and [created_by], else [None]. *)
Definition conventional_user (instance : Instance) : option Z :=
  match attr_author instance with
  | Some author => author
  | None =>
      match attr_user instance with
      | Some user => user
      | None =>
          match attr_created_by instance with
          | Some created_by => created_by
          | None => None
          end
      end
  end.

(** The receiver [log_model_save] that [register_model_signals(model_class)]
    defines. *)
Definition log_model_save (model_class : ModelClass) (sender : ModelClass)
  (instance : Instance) (created : bool) : M unit :=
  let action_type := create_or_update created in
  let user := conventional_user instance in
  let* text := str_of instance in
  ActionLog.objects.create action_type user (Some instance)
    (capitalize action_type +:+ " " +:+ class_name model_class +:+ ": "
       +:+ str_take 100 text)
    None EmptyString >>
  ret tt.

(** [register_model_signals(model_class)] connects [log_model_save] to
    [post_save] for the sender [model_class].  The connection is recorded as
    the source requests it; for how long the framework keeps a receiver that
    nothing but the signal refers to is not modelled.  No file of the
    repository calls this function. *)
Definition register_model_signals (model_class : ModelClass) : M unit :=
  modify (set_connected (fun cs => cs ++ [model_class])).

(** *** Dispatch

    [Signal.send]: the receivers connected for the sender, or for every
    sender, run in the order of their connection; an exception raised by one
    of them goes to the caller of [send]. *)

Definition listens {A} (sender : ModelClass)
  (r : option ModelClass * (ModelClass -> Instance -> A -> M unit)) : bool :=
  match fst r with
  | None => true
  | Some s => bool_decide (s = sender)
  end.

Definition send {A}
  (receivers : list (option ModelClass * (ModelClass -> Instance -> A -> M unit)))
  (sender : ModelClass) (instance : Instance) (arg : A) : M unit :=
  for_each (List.filter (listens sender) receivers)
           (fun r => snd r sender instance arg).

(** The receivers connected when signals.py is imported, in source order. *)
Definition post_save_receivers
  : list (option ModelClass * (ModelClass -> Instance -> bool -> M unit)) :=
  [ (Some UserModel, log_user_save);
    (Some UserProfileModel, log_profile_save);
    (Some BlogModel, log_blog_save);
    (Some CommentModel, log_comment_save);
    (None, fun sender instance created =>
             universal_log_save sender (an_instance instance) created) ].

Definition post_delete_receivers
  : list (option ModelClass * (ModelClass -> Instance -> unit -> M unit)) :=
  [ (Some BlogModel, log_blog_delete);
    (Some CommentModel, log_comment_delete) ].

Definition post_save_send (sender : ModelClass) (instance : Instance)
  (created : bool) : M unit :=
  let* registered := gets connected in
  send (post_save_receivers
          ++ map (fun k => (Some k, log_model_save k)) registered)
       sender instance created.

Definition post_delete_send (sender : ModelClass) (instance : Instance) : M unit :=
  send post_delete_receivers sender instance tt.

(* ===================================================================== *)
(** ** [django.db.models.Model]: [save] and [delete] *)
(* ===================================================================== *)

(** The framework methods that the classes of models.py inherit or call
    through [super()].

    [save] writes the row and then sends [post_save].

    [delete] collects what goes with the instance, deletes it inside one
    transaction and sends [post_delete] for every collected instance of a
    model, right after the rows of that model are gone.  What is collected
    follows from the declarations of models.py: [on_delete=CASCADE] on
    [Blog.author], [Comment.blog], [Comment.author] and [UserProfile.user];
    [on_delete=SET_NULL] on [ActionLog.user]; and the [GenericRelation] of
    [LoggedModel], through which the records pointing at a deleted blog,
    comment or profile are deleted with it.  Records are removed first,
    then the [SET_NULL] updates are applied, then dependent rows go before
    the rows they depend on.  Referential checks of the database itself are
    not part of the model. *)
Module Model.

Definition save_User (self : User) : M User :=
  let* table := gets auth_user in
  let saved := save_table user_pk set_user_pk self table in
  modify (set_auth_user (fun _ => snd saved)) >>
  post_save_send UserModel (IUser (fst (fst saved))) (snd (fst saved)) >>
  ret (fst (fst saved)).

Definition save_Blog (self : Blog) : M Blog :=
  let* table := gets blog_table in
  let saved := save_table blog_pk set_blog_pk self table in
  modify (set_blog_table (fun _ => snd saved)) >>
  post_save_send BlogModel (IBlog (fst (fst saved))) (snd (fst saved)) >>
  ret (fst (fst saved)).

Definition save_Comment (self : Comment) : M Comment :=
  let* table := gets comment_table in
  let saved := save_table comment_pk set_comment_pk self table in
  modify (set_comment_table (fun _ => snd saved)) >>
  post_save_send CommentModel (IComment (fst (fst saved))) (snd (fst saved)) >>
  ret (fst (fst saved)).

Definition save_UserProfile (self : UserProfile) : M UserProfile :=
  let* table := gets userprofile_table in
  let saved := save_table profile_pk set_profile_pk self table in
  modify (set_userprofile_table (fun _ => snd saved)) >>
  post_save_send UserProfileModel (IUserProfile (fst (fst saved))) (snd (fst saved)) >>
  ret (fst (fst saved)).

(** The records that the generic relation of class [m] finds for the
    instances with keys [pks]. *)
Definition generic_related (m : ModelClass) (pks : list Z) (log : ActionLog) : bool :=
  existsb (fun k => targets m k log) pks.

Definition delete_Comment (self : Comment) : M unit :=
  match comment_pk self with
  | None => raise ValueError
  | Some k =>
      atomic (
        modify (set_actionlog_table
                  (List.filter (fun l => negb (targets CommentModel k l)))) >>
        modify (set_comment_table (delete_row comment_pk k)) >>
        post_delete_send CommentModel (IComment self))
  end.

Definition delete_UserProfile (self : UserProfile) : M unit :=
  match profile_pk self with
  | None => raise ValueError
  | Some k =>
      atomic (
        modify (set_actionlog_table
                  (List.filter (fun l => negb (targets UserProfileModel k l)))) >>
        modify (set_userprofile_table (delete_row profile_pk k)) >>
        post_delete_send UserProfileModel (IUserProfile self))
  end.

Definition delete_Blog (self : Blog) : M unit :=
  match blog_pk self with
  | None => raise ValueError
  | Some k =>
      atomic (
        let* comments :=
          gets (fun w => List.filter (fun c => Z.eqb (comment_blog c) k)
                                     (comment_table w)) in
        modify (set_actionlog_table
                  (List.filter
                     (fun l => negb (generic_related CommentModel
                                       (omap comment_pk comments) l
                                     || targets BlogModel k l)))) >>
        modify (set_comment_table
                  (List.filter (fun c => negb (Z.eqb (comment_blog c) k)))) >>
        for_each comments
                 (fun c => post_delete_send CommentModel (IComment c)) >>
        modify (set_blog_table (delete_row blog_pk k)) >>
        post_delete_send BlogModel (IBlog self))
  end.

Definition delete_User (self : User) : M unit :=
  match user_pk self with
  | None => raise ValueError
  | Some k =>
      atomic (
        let* blogs :=
          gets (fun w => List.filter (fun b => Z.eqb (blog_author b) k)
                                     (blog_table w)) in
        let of_blogs (c : Comment) :=
          existsb (Z.eqb (comment_blog c)) (omap blog_pk blogs) in
        let* comments :=
          gets (fun w => List.filter
                           (fun c => Z.eqb (comment_author c) k || of_blogs c)
                           (comment_table w)) in
        let* profiles :=
          gets (fun w => List.filter (fun p => Z.eqb (profile_user p) k)
                                     (userprofile_table w)) in
        modify (set_actionlog_table
                  (List.filter
                     (fun l => negb (generic_related BlogModel
                                       (omap blog_pk blogs) l
                                     || generic_related CommentModel
                                          (omap comment_pk comments) l
                                     || generic_related UserProfileModel
                                          (omap profile_pk profiles) l)))) >>
        modify (set_actionlog_table
                  (map (fun l => if bool_decide (log_user l = Some k)
                                 then clear_user l else l))) >>
        modify (set_comment_table
                  (List.filter
                     (fun c => negb (Z.eqb (comment_author c) k || of_blogs c)))) >>
        for_each comments
                 (fun c => post_delete_send CommentModel (IComment c)) >>
        modify (set_blog_table
                  (List.filter (fun b => negb (Z.eqb (blog_author b) k)))) >>
        for_each blogs (fun b => post_delete_send BlogModel (IBlog b)) >>
        modify (set_userprofile_table
                  (List.filter (fun p => negb (Z.eqb (profile_user p) k)))) >>
        for_each profiles
                 (fun p => post_delete_send UserProfileModel (IUserProfile p)) >>
        modify (set_auth_user (delete_row user_pk k)) >>
        post_delete_send UserModel (IUser self))
  end.

End Model.

(* ===================================================================== *)
(** ** models.py: [Blog], [Comment], [UserProfile] *)
(* ===================================================================== *)

Module Blog.

(** [def save(self, *args, **kwargs)]; the result is [self] as it is after
    the call, with the key the database gave it. *)
Definition save (self : Blog) : M Blog :=
  let is_new := bool_decide (blog_pk self = None) in
  let* self := Model.save_Blog self in
  (if is_new
   then LoggedModel.log_action (IBlog self) (Some (blog_author self)) "create"
          ("Створено блог: " +:+ title self) None EmptyString
   else LoggedModel.log_action (IBlog self) (Some (blog_author self)) "update"
          ("Оновлено блог: " +:+ title self) None EmptyString) >>
  ret self.

(** [def delete(self, *args, **kwargs)] *)
Definition delete (self : Blog) : M unit :=
  LoggedModel.log_action (IBlog self) (Some (blog_author self)) "delete"
    ("Видалено блог: " +:+ title self) None EmptyString >>
  Model.delete_Blog self.

End Blog.

Module Comment.

Definition save (self : Comment) : M Comment :=
  let is_new := bool_decide (comment_pk self = None) in
  let* self := Model.save_Comment self in
  (if is_new
   then let* blog := fetch_blog (comment_blog self) in
        LoggedModel.log_action (IComment self) (Some (comment_author self)) "create"
          ("Додано коментар до блогу: " +:+ title blog) None EmptyString >>
        ret tt
   else ret tt) >>
  ret self.

(** Inherited from [models.Model]. *)
Definition delete (self : Comment) : M unit := Model.delete_Comment self.

(** [@property def preview(self)] *)
Definition preview (self : Comment) : string :=
  if Nat.ltb 100 (String.length (text self))
  then str_take 100 (text self) +:+ "..."
  else text self.

End Comment.

Module UserProfile.

Definition save (self : UserProfile) : M UserProfile :=
  let is_new := bool_decide (profile_pk self = None) in
  let* self := Model.save_UserProfile self in
  let* user := fetch_user (profile_user self) in
  (if is_new
   then LoggedModel.log_action (IUserProfile self) (user_pk user) "create"
          ("Створено профіль для " +:+ username user) None EmptyString
   else LoggedModel.log_action (IUserProfile self) (user_pk user) "update"
          ("Оновлено профіль " +:+ username user) None EmptyString) >>
  ret self.

(** Inherited from [models.Model]. *)
Definition delete (self : UserProfile) : M unit := Model.delete_UserProfile self.

End UserProfile.

(** [django.contrib.auth.models.User]: both methods are the framework's. *)
Module User.

Definition save (self : User) : M User := Model.save_User self.

Definition delete (self : User) : M unit := Model.delete_User self.

End User.

(* ===================================================================== *)
(** ** mixins.py *)
(* ===================================================================== *)

Record HttpResponse := {
  status_code : Z
}.

(** A view as the mixins see it: its class name, the class attributes
    [log_action] and [action_type], the attribute [object] when the view has
    one ([Some None]: present and [None]), and [get_object] when the view
    defines it. *)
Record View := {
  view_class : string;
  view_log_action : bool;
  view_action_type : string;
  view_object : option (option Instance);
  view_get_object : option (M (option Instance))
}.

Module ActionLoggingMixin.

(** [def get_client_ip(self, request)] *)
Definition get_client_ip (request : HttpRequest) : option string :=
  let x_forwarded_for := META request !! "HTTP_X_FORWARDED_FOR" in
  match x_forwarded_for with
  | Some value =>
      if truthy (PyStr value) then Some (item0 (str_split "," value))
      else META request !! "REMOTE_ADDR"
  | None => META request !! "REMOTE_ADDR"
  end.

(** [def get_log_data(self, request, response, *args, **kwargs)]: the four
    entries of the dictionary. *)
Definition get_log_data (self : View) (request : HttpRequest)
  (response : HttpResponse) : string * string * string * Z :=
  (view_class self, request_method request, request_path request,
   status_code response).

(** [def log_user_action(self, request, response, *args, **kwargs)].  The
    call to [ActionLog.objects.create] passes the class of the object as
    [content_type] and a keyword [additional_data], which names no field of
    [ActionLog]. *)
Definition log_user_action (self : View) (request : HttpRequest)
  (response : HttpResponse) : M unit :=
  try_except
    (let* obj :=
       match view_object self with
       | Some o => ret o
       | None =>
           match view_get_object self with
           | Some get_object => try_except get_object (fun _ => ret None)
           | None => ret None
           end
       end in
     ActionLog.objects.create_kwargs
       (view_action_type self)
       (request_user request)
       (match obj with
        | Some o => ActionLog.objects.a_model_class (class_of o)
        | None => ActionLog.objects.no_content_type
        end)
       (match obj with
        | Some o => str_int <$> pk_of o
        | None => None
        end)
       (get_client_ip request)
       (default EmptyString (META request !! "HTTP_USER_AGENT"))
       ["additional_data"] >>
     ret tt)
    (fun e => modify (add_logger_error e)).

(** [def dispatch(self, request, *args, **kwargs)], given what
    [super().dispatch] does. *)
Definition dispatch (self : View) (super_dispatch : M HttpResponse)
  (request : HttpRequest) : M HttpResponse :=
  let* response := super_dispatch in
  (if view_log_action self && bool_decide (request_user request <> None)
   then log_user_action self request response
   else ret tt) >>
  ret response.

End ActionLoggingMixin.

Module EnhancedPaginationMixin.

(** The class attributes. *)
Record t := {
  paginate_by : option Z;
  page_kwarg : string;
  allow_all : bool;
  max_per_page : Z
}.

Definition defaults : t :=
  {| paginate_by := Some 10; page_kwarg := "page"; allow_all := false;
     max_per_page := 100 |}.

(** [def get_paginate_by(self, queryset)]: [Ok None] switches paging off. *)
Definition get_paginate_by (self : t) (request : HttpRequest) : Result (option Z) :=
  if allow_all self
     && bool_decide (QueryDict_get (GET request) "show" = Some "all")
  then Ok None
  else
    let per_page :=
      match QueryDict_get (GET request) "per_page" with
      | Some value => PyStr value
      | None => match paginate_by self with
                | Some n => PyInt n
                | None => PyNone
                end
      end in
    match int per_page with
    | Ok per_page =>
        if per_page >? max_per_page self then Ok (Some (max_per_page self))
        else Ok (Some per_page)
    | Raise ValueError | Raise TypeError => Ok (paginate_by self)
    | Raise e => Raise e
    end.

End EnhancedPaginationMixin.

(** [django.views.generic.list.MultipleObjectMixin], the base of every
    [ListView] of views.py: how [paginate_queryset] turns the [page]
    parameter into a page number.  Neither views.py nor mixins.py overrides
    it. *)
Module MultipleObjectMixin.


End MultipleObjectMixin.

Module ObjectLogsMixin.

Definition logs_limit : nat := 10.

(** The query behind [context['object_logs']] in [get_context_data], for the
    object [obj] of the view: it is then cut to [logs_limit] rows. *)
Definition object_logs (obj : Instance) (w : World) : QuerySet.t :=
  ActionLog.objects.filter
    (fun log => bool_decide (content_type log = Some (class_of obj))
                && bool_decide (object_id log = (str_int <$> pk_of obj)))
    w.

(** What [get_context_data] leaves under [context['object_logs']]: nothing,
    a query cut to [logs_limit] rows, or the empty list. *)
Inductive object_logs_entry :=
| not_set
| logs_query (q : QuerySet.t) (limit : nat)
| empty_list.

(** [def get_context_data(self, **kwargs)], as far as [object_logs] goes,
    with the class attribute [include_logs] and the [get_object] of the
    view when it has one. *)
Definition get_context_data (include_logs : bool)
  (get_object : option (M (option Instance))) : M object_logs_entry :=
  match get_object with
  | Some get_object =>
      if include_logs
      then try_except
             (let* obj := get_object in
              match obj with
              | Some o => fun w => (Ok (logs_query (object_logs o w) logs_limit), w)
              | None => ret not_set
              end)
             (fun _ => ret empty_list)
      else ret not_set
  | None => ret not_set
  end.

End ObjectLogsMixin.

(* ===================================================================== *)
(** ** views.py *)
(* ===================================================================== *)

Module ObjectLogListView.

(** [def get_queryset(self)], with the two URL arguments
    [content_type_id] and [object_id]. *)
Definition get_queryset (content_type_id : ModelClass) (object_id' : string)
  (w : World) : QuerySet.t :=
  ActionLog.objects.filter
    (fun log => bool_decide (content_type log = Some content_type_id)
                && bool_decide (object_id log = Some object_id'))
    w.

End ObjectLogListView.

Module ActionLogDetailView.

(** [def get_object(self)]: [get_object_or_404(ActionLog, id=pk)] *)
Definition get_object (pk : Z) : M ActionLog :=
  fun w => match List.find (ActionLog.same_id pk) (actionlog_table w) with
           | Some log => (Ok log, w)
           | None => (Raise Http404, w)
           end.

End ActionLogDetailView.

Module ActionLogListView.

(** [def get_queryset(self)].  The lookup [user__id=user_id] turns the text
    of the parameter into an integer, as [int] does, and raises [ValueError]
    when it is none; [action_type=action_type] compares the text. *)
Definition get_queryset (request : HttpRequest) (w : World) : Result QuerySet.t :=
  let queryset := ActionLog.objects.all w in
  let user_id := QueryDict_get (GET request) "user_id" in
  let action_type' := QueryDict_get (GET request) "action_type" in
  match
    match user_id with
    | Some value =>
        if truthy (PyStr value)
        then match int (PyStr value) with
             | Ok n => Ok (QuerySet.filter
                             (fun log => bool_decide (log_user log = Some n))
                             queryset)
             | Raise e => Raise e
             end
        else Ok queryset
    | None => Ok queryset
    end
  with
  | Ok queryset =>
      match action_type' with
      | Some value =>
          if truthy (PyStr value)
          then Ok (QuerySet.filter
                     (fun log => bool_decide (action_type log = value))
                     queryset)
          else Ok queryset
      | None => Ok queryset
      end
  | Raise e => Raise e
  end.

End ActionLogListView.

(** The rows a query over blogs or comments selects; the order in which the
    database lists them (by [created_at]) is not modelled. *)
Module BlogListView.

(** [def get_queryset(self)] *)
Definition get_queryset (request : HttpRequest) (w : World) : list Blog :=
  let queryset := blog_table w in
  match request_user request with
  | None => List.filter (fun b => is_published b) queryset
  | Some _ => queryset
  end.

End BlogListView.

Module PublicPrivateMixin.

(** The class attribute [show_all_to_staff]; [public_field] and
    [owner_field] are at their defaults, [is_published] and [author].  The
    queryset is one of blogs, the only model with these two fields. *)
Record t := {
  show_all_to_staff : bool
}.

Definition defaults : t := {| show_all_to_staff := true |}.

(** [def get_queryset(self)], given what [super().get_queryset()] selects
    and whether [request.user.is_staff]. *)
Definition get_queryset (self : t) (request : HttpRequest) (is_staff : bool)
  (queryset : list Blog) : list Blog :=
  match request_user request with
  | None => List.filter (fun b => is_published b) queryset
  | Some user =>
      if show_all_to_staff self && is_staff then queryset
      else List.filter
             (fun b => is_published b || Z.eqb (blog_author b) user)
             queryset
  end.

End PublicPrivateMixin.

(** How a view answers: with a response, with the redirect to the login
    page, or with the exception [PermissionDenied], which the framework
    turns into status 403. *)
Inductive Answer :=
| answered (r : HttpResponse)
| redirected_to_login
| permission_denied.

(** [get_object_or_404(Blog, pk=pk)], and [self.get_object()] of a view whose
    model is [Blog]. *)
Definition get_blog_or_404 (pk : Z) : M Blog :=
  fun w => match List.find (has_pk blog_pk pk) (blog_table w) with
           | Some b => (Ok b, w)
           | None => (Raise Http404, w)
           end.

(** [AccessMixin.handle_no_permission], with [raise_exception] at its
    default. *)
Definition handle_no_permission (request : HttpRequest) : Answer :=
  match request_user request with
  | Some _ => permission_denied
  | None => redirected_to_login
  end.

Module BlogUpdateView.

(** [def dispatch(self, request, *args, **kwargs)], given what
    [super().dispatch] does. *)
Definition dispatch (pk : Z) (request : HttpRequest)
  (super_dispatch : M HttpResponse) : M Answer :=
  let* blog := get_blog_or_404 pk in
  if negb (bool_decide (Some (blog_author blog) = request_user request))
  then ret (handle_no_permission request)
  else let* r := super_dispatch in ret (answered r).

End BlogUpdateView.

Module BlogDeleteView.

(** [def dispatch(self, request, *args, **kwargs)] *)
Definition dispatch (pk : Z) (request : HttpRequest)
  (super_dispatch : M HttpResponse) : M Answer :=
  let* blog := get_blog_or_404 pk in
  if negb (bool_decide (Some (blog_author blog) = request_user request))
  then ret (handle_no_permission request)
  else let* r := super_dispatch in ret (answered r).

(** What the framework's [DeleteView] does with a [POST]: it fetches the
    object, calls its [delete] and redirects to [success_url]. *)
Definition post (pk : Z) : M HttpResponse :=
  let* blog := get_blog_or_404 pk in
  Blog.delete blog >>
  ret {| status_code := 302 |}.

End BlogDeleteView.

Module BlogCreateView.

(** [def form_valid(self, form)]: [form.instance] gets the requesting user
    as its author, then the framework's [form_valid] saves the instance and
    redirects.  Assigning the anonymous user to [author] is refused with
    [ValueError]. *)
Definition form_valid (form_instance : Blog) (request : HttpRequest) : M HttpResponse :=
  match request_user request with
  | None => raise ValueError
  | Some user =>
      Blog.save {| blog_pk := blog_pk form_instance;
                   title := title form_instance;
                   content := content form_instance;
                   blog_author := user;
                   is_published := is_published form_instance |} >>
      ret {| status_code := 302 |}
  end.

End BlogCreateView.

Module CommentCreateView.

(** [def form_valid(self, form)], with [blog_pk] the URL argument: the blog
    is fetched or the answer is [Http404]; [form.instance] gets the
    requesting user as its author and the blog; the framework's
    [form_valid] saves it and redirects. *)
Definition form_valid (form_instance : Comment) (blog_pk' : Z)
  (request : HttpRequest) : M HttpResponse :=
  let* blog := get_blog_or_404 blog_pk' in
  match request_user request, blog_pk blog with
  | Some user, Some k =>
      Comment.save {| comment_pk := comment_pk form_instance;
                      comment_blog := k;
                      comment_author := user;
                      text := text form_instance;
                      is_active := is_active form_instance |} >>
      ret {| status_code := 302 |}
  | _, _ => raise ValueError
  end.

End CommentCreateView.

(* ===================================================================== *)
(** ** admin.py *)
(* ===================================================================== *)

Module ActionLogAdmin.


End ActionLogAdmin.

Module CommentAdmin.

(** [def preview(self, obj)] *)
Definition preview (obj : Comment) : string :=
  if Nat.ltb 100 (String.length (text obj))
  then str_take 100 (text obj) +:+ "..."
  else text obj.

End CommentAdmin.

(* ===================================================================== *)
(** ** Vocabulary of the statements *)
(* ===================================================================== *)

(** [c in s] *)
Fixpoint contains_char (c : ascii) (s : string) : bool :=
  match s with
  | EmptyString => false
  | String c' r => Ascii.eqb c' c || contains_char c r
  end.

(** The record [ActionLog.objects.create] builds in world [w]. *)
Definition new_record (w : World) (action_type' : string) (user : option Z)
  (content_object : option Instance) (description' : string)
  (ip_address' : option string) (user_agent' : string) : ActionLog :=
  {| log_id := uuid4_next w; action_type := action_type'; timestamp := clock w;
     log_user := user;
     content_type := fst (content_object_fields content_object);
     object_id := snd (content_object_fields content_object);
     description := description'; ip_address := ip_address';
     user_agent := user_agent' |}.

(** The world after one record was appended under a fresh key. *)
Definition appended (log : ActionLog) (w : World) : World :=
  set_actionlog_table (fun t => t ++ [log])
                      (set_uuid4_next (uuid4_next w + 1) w).

(** No stored record has a key that [uuid4] is still to hand out. *)
Definition fresh_ids (w : World) : Prop :=
  Forall (fun log => log_id log < uuid4_next w) (actionlog_table w).

(** A computation keeps a property of the world, whatever its outcome. *)
Definition preserves {A} (P : World -> Prop) (m : M A) : Prop :=
  forall w, P w -> P (world_of (m w)).

(** A computation leaves the world with a property, whatever its outcome. *)
Definition establishes {A} (P : World -> Prop) (m : M A) : Prop :=
  forall w, P (world_of (m w)).

(** A property of the record store, read off a world. *)
Definition on_store (Q : list ActionLog -> Prop) (w : World) : Prop :=
  Q (actionlog_table w).

(** A property of the store that appending a record without a target keeps. *)
Definition append_stable (Q : list ActionLog -> Prop) : Prop :=
  forall table log, content_type log = None -> Q table -> Q (table ++ [log]).

(** No stored record points at the instance of class [m] with key [k]. *)
Definition untargeted (m : ModelClass) (k : Z) (w : World) : Prop :=
  on_store (Forall (fun log => targets m k log = false)) w.

(** With the store refusing writes, a computation either passes or raises
    the error of the store, and leaves the blogs and the refusal as they
    were. *)
Definition passes_or_is_refused (m : M unit) (w : World) : Prop :=
  exists w',
    (m w = (Ok tt, w') \/ m w = (Raise DatabaseError, w'))
    /\ writes_left w' = Some 0%nat
    /\ blog_table w' = blog_table w.


(** What the run examples show of a record. *)
Definition summary (log : ActionLog)
  : string * option ModelClass * option string * option Z :=
  (action_type log, content_type log, object_id log, log_user log).

(* ===================================================================== *)
(** ** A small world to run the code in *)
(* ===================================================================== *)

Definition alice : User := {| user_pk := Some 1; username := "alice" |}.

Definition empty_world : World :=
  {| auth_user := []; blog_table := []; comment_table := [];
     userprofile_table := []; actionlog_table := []; connected := [];
     clock := 1000; uuid4_next := 1; writes_left := None; logger_errors := [] |}.

(** The application with one user and nothing logged yet. *)
Definition world0 : World := set_auth_user (fun _ => [alice]) empty_world.

(** A blog of [alice], before it is saved and after. *)
Definition hello : Blog :=
  {| blog_pk := None; title := "Hello"; content := "First post";
     blog_author := 1; is_published := true |}.

Definition hello1 : Blog := set_blog_pk 1 hello.

(** A blog that comes with a key of its own and is not stored yet. *)
Definition imported : Blog :=
  {| blog_pk := Some 5; title := "Imported"; content := "From a fixture";
     blog_author := 1; is_published := true |}.

(** A comment of [alice] on the blog [hello1]. *)
Definition comment0 : Comment :=
  {| comment_pk := None; comment_blog := 1; comment_author := 1;
     text := "Nice"; is_active := true |}.

Definition comment1 : Comment := set_comment_pk 1 comment0.

(** The profile of [alice], before it is saved and after. *)
Definition profile0 : UserProfile :=
  {| profile_pk := None; profile_user := 1; bio := "About me";
     website := "https://alice.example.com"; location := "Kyiv" |}.

Definition profile1 : UserProfile := set_profile_pk 1 profile0.

(** An instance of a model [Article] defined outside the application: it
    has an [author] and no logging code of its own. *)
Definition article : OtherInstance :=
  {| other_class := "Article"; other_pk := Some 7;
     other_author := Some (Some 1); other_user := None;
     other_created_by := None; other_has_action_logs := false;
     other_str := "An article" |}.

(** The world after [hello] was saved, with a store that refuses the next
    write. *)
Definition world_refusing_writes : World :=
  set_writes_left (Some 0%nat) (world_of (Blog.save hello world0)).

Definition record (id timestamp' : Z) (kind : option ModelClass)
  (oid : option string) : ActionLog :=
  {| log_id := id; action_type := "view"; timestamp := timestamp';
     log_user := Some 1; content_type := kind; object_id := oid;
     description := "seen"; ip_address := None; user_agent := EmptyString |}.

(** Three records with the same raw object id or the same kind: blog 1,
    comment 1 and blog 2. *)
Definition world_with_overlapping_ids : World :=
  set_actionlog_table
    (fun _ => [ record 1 1000 (Some BlogModel) (Some "1");
                record 2 1001 (Some CommentModel) (Some "1");
                record 3 1002 (Some BlogModel) (Some "2") ])
    world0.

(** Two records written at the same instant; the one with key 7 was
    inserted first. *)
Definition world_with_tie : World :=
  set_actionlog_table
    (fun _ => [ record 7 1000 None None; record 3 1000 None None ])
    world0.

(** A detail view of the blog [hello1]. *)
Definition blog_detail_view : View :=
  {| view_class := "BlogDetailView"; view_log_action := true;
     view_action_type := "view"; view_object := Some (Some (IBlog hello1));
     view_get_object := None |}.

Definition plain_request : HttpRequest :=
  {| META := <["REMOTE_ADDR" := "10.0.0.1"]> ∅; GET := ∅;
     request_user := Some 1; request_method := "GET";
     request_path := "/blogs/1/" |}.

(** A request that carries an empty [X-Forwarded-For] header. *)
Definition request_with_empty_forwarded_for : HttpRequest :=
  {| META := <["HTTP_X_FORWARDED_FOR" := EmptyString]>
               (<["REMOTE_ADDR" := "10.0.0.1"]> ∅);
     GET := ∅; request_user := Some 1; request_method := "GET";
     request_path := "/blogs/" |}.

(** [GET /logs/?page=abc&per_page=500] *)
Definition request_page_abc : HttpRequest :=
  {| META := ∅;
     GET := <["page" := ["abc"]]> (<["per_page" := ["500"]]> ∅);
     request_user := Some 1; request_method := "GET";
     request_path := "/logs/" |}.

(** A comment with a text of 200 characters. *)
Definition long_comment : Comment :=
  {| comment_pk := Some 2; comment_blog := 1; comment_author := 1;
     text := str_take 200 (String.concat EmptyString (repeat "0123456789" 20));
     is_active := true |}.

(** [GET /logs/?user_id=1&action_type=view] *)
Definition request_user_1_views : HttpRequest :=
  {| META := ∅;
     GET := <["user_id" := ["1"]]> (<["action_type" := ["view"]]> ∅);
     request_user := Some 1; request_method := "GET";
     request_path := "/logs/" |}.


(** A visitor who is not logged in. *)
Definition anonymous_request : HttpRequest :=
  {| META := ∅; GET := ∅; request_user := None; request_method := "GET";
     request_path := "/blogs/" |}.

(** A request of user 2, who owns nothing. *)
Definition request_of_bob : HttpRequest :=
  {| META := ∅; GET := ∅; request_user := Some 2; request_method := "POST";
     request_path := "/blogs/1/delete/" |}.

(** A draft of [alice]: stored, not published. *)
Definition draft : Blog :=
  {| blog_pk := Some 2; title := "Draft"; content := "Not yet";
     blog_author := 1; is_published := false |}.

Definition world_with_draft : World :=
  set_blog_table (fun _ => [hello1; draft]) world0.

(** The store accepts writes, [uuid4] hands out keys not in use, and no
    receiver was connected after start-up (none is in the repository). *)
Definition working (w : World) : Prop :=
  writes_left w = None /\ fresh_ids w /\ connected w = [].

(** If [m] returns, [post] holds of the world it leaves, for every world
    with [pre] it is started in. *)
Definition ensures {A} (m : M A) (pre post : World -> Prop) : Prop :=
  forall w a w', pre w -> m w = (Ok a, w') -> post w'.

(** The last record of the store. *)
Definition last_record (w : World) : option ActionLog := last (actionlog_table w).

(** A comment that brings a key of its own and is not stored yet. *)
Definition imported_comment : Comment :=
  {| comment_pk := Some 9; comment_blog := 1; comment_author := 1;
     text := "From a fixture"; is_active := true |}.

(** A user who is not stored yet. *)
Definition carol : User := {| user_pk := None; username := "carol" |}.

(** The four tables of the application other than the record store. *)
Definition entities (w : World)
  : list User * list Blog * list Comment * list UserProfile :=
  (auth_user w, blog_table w, comment_table w, userprofile_table w).

(** The action under which the [post_save] receivers log a save: the row
    is created unless the instance has a key that is already stored. *)
Definition first_action (pk : option Z) (stored : bool) : string :=
  match pk with
  | None => "create"
  | Some _ => if stored then "update" else "create"
  end.

(** [carol] once saved in [world0], where key 1 is taken. *)
Definition carol2 : User := set_user_pk 2 carol.


(* ===================================================================== *)
(** * Theorems *)
(* ===================================================================== *)


(** ** [get_client_ip] *)

Lemma str_split_nonempty sep s : str_split sep s <> [].
Proof.
  destruct s as [|c r]; simpl; [discriminate|].
  destruct (Ascii.eqb c sep); [discriminate|].
  destruct (str_split sep r); discriminate.
Qed.

(** The first piece of a split is what stands before the first separator. *)
Lemma item0_split sep s :
  contains_char sep (item0 (str_split sep s)) = false
  /\ (s = item0 (str_split sep s)
      \/ exists rest, s = item0 (str_split sep s) +:+ String sep rest).
Proof.
  induction s as [|c r [IHno IHsplit]]; simpl.
  - split; [reflexivity | left; reflexivity].
  - destruct (Ascii.eqb c sep) eqn:Ec; simpl.
    + apply Ascii.eqb_eq in Ec. subst c.
      split; [reflexivity | right; exists r; reflexivity].
    + pose proof (str_split_nonempty sep r) as Hne.
      destruct (str_split sep r) as [|piece pieces]; [congruence|].
      simpl in *. rewrite Ec, IHno. split; [reflexivity|].
      destruct IHsplit as [-> | [rest ->]].
      * left; reflexivity.
      * right; exists rest; reflexivity.
Qed.

(** C10, as the code has it: a forwarded-for header that is present and not
    empty gives the part of its value before the first comma; a header that
    is absent or empty gives [REMOTE_ADDR], which may itself be absent. *)
Theorem get_client_ip_spec (request : HttpRequest) :
  match META request !! "HTTP_X_FORWARDED_FOR" with
  | Some value =>
      if String.eqb value EmptyString
      then ActionLoggingMixin.get_client_ip request = META request !! "REMOTE_ADDR"
      else exists ip,
          ActionLoggingMixin.get_client_ip request = Some ip
          /\ contains_char "," ip = false
          /\ (value = ip \/ exists rest, value = ip +:+ String "," rest)
  | None =>
      ActionLoggingMixin.get_client_ip request = META request !! "REMOTE_ADDR"
  end.
Proof.
  unfold ActionLoggingMixin.get_client_ip.
  destruct (META request !! "HTTP_X_FORWARDED_FOR") as [value|]; [|reflexivity].
  simpl. destruct (String.eqb value EmptyString); simpl; [reflexivity|].
  exists (item0 (str_split "," value)).
  split; [reflexivity|]. apply item0_split.
Qed.

(** C10 as stated fails: with the header present but empty the address is
    [REMOTE_ADDR], not the (empty) text before the first comma. *)
Lemma empty_forwarded_for_falls_back_to_remote_addr :
  META request_with_empty_forwarded_for !! "HTTP_X_FORWARDED_FOR" = Some EmptyString
  /\ ActionLoggingMixin.get_client_ip request_with_empty_forwarded_for
     = Some "10.0.0.1"
  /\ ActionLoggingMixin.get_client_ip request_with_empty_forwarded_for
     <> Some (item0 (str_split "," EmptyString)).
Proof. vm_compute. repeat split; discriminate. Qed.

(** ** Paging parameters *)



(** Without the parameter the page size is the class attribute, capped in the
    same way. *)
Lemma get_paginate_by_default
  (self : EnhancedPaginationMixin.t) (request : HttpRequest) (n : Z) :
  EnhancedPaginationMixin.allow_all self
    && bool_decide (QueryDict_get (GET request) "show" = Some "all") = false ->
  QueryDict_get (GET request) "per_page" = None ->
  EnhancedPaginationMixin.paginate_by self = Some n ->
  EnhancedPaginationMixin.get_paginate_by self request
  = Ok (Some (Z.min n (EnhancedPaginationMixin.max_per_page self))).
Proof.
  intros Hshow Hget Hby. unfold EnhancedPaginationMixin.get_paginate_by.
  rewrite Hshow, Hget, Hby. simpl.
  destruct (Z.gtb_spec n (EnhancedPaginationMixin.max_per_page self)).
  - rewrite Z.min_r by lia. reflexivity.
  - rewrite Z.min_l by lia. reflexivity.
Qed.

Lemma get_paginate_by_never_raises
  (self : EnhancedPaginationMixin.t) (request : HttpRequest) :
  exists size, EnhancedPaginationMixin.get_paginate_by self request = Ok size.
Proof.
  unfold EnhancedPaginationMixin.get_paginate_by.
  destruct (_ && _); [eexists; reflexivity|].
  destruct (QueryDict_get (GET request) "per_page") as [value|]; simpl.
  - destruct (int_of_str value); [|eexists; reflexivity].
    destruct (_ >? _); eexists; reflexivity.
  - destruct (EnhancedPaginationMixin.paginate_by self); simpl;
      [|eexists; reflexivity].
    destruct (_ >? _); eexists; reflexivity.
Qed.


(** ** Listing and filtering *)

Lemma compare_by_antisym terms a b :
  QuerySet.compare_by terms b a = CompOpp (QuerySet.compare_by terms a b).
Proof.
  induction terms as [|term rest IH]; simpl; [reflexivity|].
  assert (QuerySet.compare_term term b a
          = CompOpp (QuerySet.compare_term term a b)) as ->.
  { destruct term; simpl; apply Z.compare_antisym. }
  destruct (QuerySet.compare_term term a b); simpl; auto.
Qed.

Lemma place_perm terms a l : Permutation (a :: l) (QuerySet.place terms a l).
Proof.
  induction l as [|b rest IH]; simpl; [reflexivity|].
  destruct (QuerySet.compare_by terms a b); try reflexivity.
  rewrite perm_swap. constructor. exact IH.
Qed.

Lemma place_HdRel terms a b l :
  QuerySet.may_precede terms b a ->
  HdRel (QuerySet.may_precede terms) b l ->
  HdRel (QuerySet.may_precede terms) b (QuerySet.place terms a l).
Proof.
  intros Hba Hhd. destruct l as [|c rest]; simpl.
  - constructor. exact Hba.
  - inversion Hhd; subst.
    destruct (QuerySet.compare_by terms a c); constructor; assumption.
Qed.

Lemma place_sorted terms a l :
  Sorted (QuerySet.may_precede terms) l ->
  Sorted (QuerySet.may_precede terms) (QuerySet.place terms a l).
Proof.
  induction 1 as [|b rest Hsorted IH Hhd]; simpl.
  - repeat constructor.
  - destruct (QuerySet.compare_by terms a b) eqn:Hab.
    + constructor; [constructor; assumption|].
      constructor. unfold QuerySet.may_precede. rewrite Hab. discriminate.
    + constructor; [constructor; assumption|].
      constructor. unfold QuerySet.may_precede. rewrite Hab. discriminate.
    + constructor; [exact IH|].
      apply place_HdRel; [|exact Hhd].
      unfold QuerySet.may_precede. rewrite compare_by_antisym, Hab.
      discriminate.
Qed.

(** Every query has an answer: the computed one. *)
Lemma fetch_answers (q : QuerySet.t) : QuerySet.answers q (QuerySet.fetch q).
Proof.
  unfold QuerySet.answers, QuerySet.fetch.
  induction (QuerySet.rows q) as [|a rest [IHperm IHsorted]]; simpl.
  - split; constructor.
  - split.
    + rewrite <- place_perm. constructor. exact IHperm.
    + apply place_sorted. exact IHsorted.
Qed.

Lemma may_precede_default a b :
  QuerySet.may_precede ActionLog.Meta.ordering a b <-> timestamp b <= timestamp a.
Proof.
  unfold QuerySet.may_precede. simpl.
  destruct (Z.compare_spec (timestamp b) (timestamp a)); split; intros; try lia;
    try discriminate; congruence.
Qed.











(** The same filter in [ObjectLogsMixin], cut to [logs_limit] rows: what is
    shown targets the object of the view. *)
Lemma object_logs_target_the_object
  (w : World) (obj : Instance) (l : list ActionLog) :
  QuerySet.sliced_answers ObjectLogsMixin.logs_limit
    (ObjectLogsMixin.object_logs obj w) l ->
  forall log,
    In log l ->
    content_type log = Some (class_of obj)
    /\ object_id log = (str_int <$> pk_of obj).
Proof.
  intros (full & [Hperm _] & ->) log Hin. simpl in Hperm.
  assert (In log full) as Hfull.
  { apply list_elem_of_In. apply list_elem_of_In in Hin.
    eapply subseteq_take. exact Hin. }
  apply (Permutation_in _ (Permutation_sym Hperm)) in Hfull.
  apply filter_In in Hfull as [_ Hp].
  apply andb_prop in Hp as [Hk Ho].
  apply bool_decide_eq_true in Hk, Ho. auto.
Qed.

(** ** The emitter *)

Lemma create_spec w action user obj desc ip ua :
  writes_left w = None ->
  ActionLog.objects.create action user obj desc ip ua w
  = (Ok (new_record w action user obj desc ip ua),
     appended (new_record w action user obj desc ip ua) w).
Proof.
  intros Hw. unfold ActionLog.objects.create, bind, uuid4, timezone_now, gets,
    actionlog_write, modify, ret.
  simpl. rewrite Hw. reflexivity.
Qed.

Lemma create_refused w action user obj desc ip ua :
  writes_left w = Some 0%nat ->
  ActionLog.objects.create action user obj desc ip ua w
  = (Raise DatabaseError, set_uuid4_next (uuid4_next w + 1) w).
Proof.
  intros Hw. unfold ActionLog.objects.create, bind, uuid4, timezone_now, gets,
    actionlog_write, modify, ret.
  simpl. rewrite Hw. reflexivity.
Qed.

Lemma fresh_ids_appended log w :
  fresh_ids w -> log_id log = uuid4_next w -> fresh_ids (appended log w).
Proof.
  unfold fresh_ids. intros Hf Hid. simpl.
  apply Forall_app. split.
  - eapply Forall_impl; [exact Hf|]. simpl. intros. lia.
  - constructor; [lia | constructor].
Qed.

Lemma overwrite_last (log log' : ActionLog) (table : list ActionLog) :
  Forall (fun l => log_id l < log_id log) table ->
  log_id log' = log_id log ->
  map (fun l => if ActionLog.same_id (log_id log') l then log' else l)
      (table ++ [log])
  = table ++ [log'].
Proof.
  intros Hf Hid. rewrite map_app. simpl. f_equal.
  - induction Hf as [|l table Hl _ IH]; simpl; [reflexivity|].
    rewrite IH. unfold ActionLog.same_id.
    destruct (Z.eqb_spec (log_id l) (log_id log')); [lia | reflexivity].
  - unfold ActionLog.same_id. rewrite Hid, Z.eqb_refl. reflexivity.
Qed.

Lemma existsb_last (log : ActionLog) (table : list ActionLog) :
  existsb (ActionLog.same_id (log_id log)) (table ++ [log]) = true.
Proof.
  rewrite existsb_app. simpl. unfold ActionLog.same_id at 2.
  rewrite Z.eqb_refl. apply orb_true_iff. right. reflexivity.
Qed.

(** Without a failing store, [log_action] with a target leaves one more
    record, which carries the target. *)
Lemma log_action_spec w user action obj desc ip ua :
  writes_left w = None ->
  fresh_ids w ->
  ActionLog.log_action user action (Some obj) desc ip ua w
  = (Ok (set_content_object obj (new_record w action user None desc ip ua)),
     appended (set_content_object obj (new_record w action user None desc ip ua)) w).
Proof.
  intros Hw Hf. unfold ActionLog.log_action, bind.
  rewrite create_spec by exact Hw.
  unfold ActionLog.save, bind, actionlog_write, gets, modify, ret.
  simpl. rewrite Hw.
  set (log := new_record w action user None desc ip ua).
  assert (existsb (ActionLog.same_id (uuid4_next w))
                  (actionlog_table (appended log w)) = true) as ->
    by apply (existsb_last log).
  simpl. f_equal. unfold appended, set_actionlog_table, set_uuid4_next. simpl.
  f_equal. apply (overwrite_last log (set_content_object obj log)).
  - exact Hf.
  - reflexivity.
Qed.

(** C4 fails on the code: [log_action] with a target writes twice, first the
    record without its target and then the target.  When the store refuses
    the second write the caller gets the exception and the store keeps a
    record that lacks its target. *)
Theorem log_action_leaves_record_without_target
  (w : World) (user : option Z) (action : string) (obj : Instance)
  (desc : string) (ip : option string) (ua : string) :
  writes_left w = Some 1%nat ->
  let after := ActionLog.log_action user action (Some obj) desc ip ua w in
  outcome after = Raise DatabaseError
  /\ exists log,
      actionlog_table (world_of after) = actionlog_table w ++ [log]
      /\ action_type log = action /\ log_user log = user
      /\ description log = desc
      /\ content_type log = None /\ object_id log = None.
Proof.
  intros Hw. unfold ActionLog.log_action, ActionLog.objects.create,
    ActionLog.save, bind, uuid4, timezone_now, gets, actionlog_write, modify, ret.
  simpl. rewrite Hw. simpl. split; [reflexivity|].
  eexists. split; [reflexivity|]. repeat split.
Qed.

Lemma log_action_leaves_record_without_target_witness :
  let after := ActionLog.log_action (Some 1) "view" (Some (IBlog hello1))
                 "seen" None EmptyString
                 (set_writes_left (Some 1%nat) world0) in
  outcome after = Raise DatabaseError
  /\ exists log,
      actionlog_table (world_of after)
      = actionlog_table (set_writes_left (Some 1%nat) world0) ++ [log]
      /\ action_type log = "view" /\ log_user log = Some 1
      /\ description log = "seen"
      /\ content_type log = None /\ object_id log = None.
Proof.
  apply (log_action_leaves_record_without_target
           (set_writes_left (Some 1%nat) world0)).
  reflexivity.
Defined.

(** The two writes, counted: a store that accepts two more writes accepts
    none after one [log_action] with a target. *)
Lemma log_action_writes_twice :
  writes_left
    (world_of (ActionLog.log_action (Some 1) "view" (Some (IBlog hello1))
                 "seen" None EmptyString
                 (set_writes_left (Some 2%nat) world0)))
  = Some 0%nat.
Proof. reflexivity. Qed.

(** ** Saving a blog *)

Lemma post_save_blog_updated w (b : Blog) :
  writes_left w = None ->
  fresh_ids w ->
  connected w = [] ->
  post_save_send BlogModel (IBlog b) false w
  = (Ok tt,
     appended (set_content_object (IBlog b)
                 (new_record w "update" (Some (blog_author b)) None
                    ("Оновлено блог: " +:+ title b) None EmptyString)) w).
Proof.
  intros Hw Hf Hc. unfold post_save_send, bind, gets. rewrite Hc.
  unfold send. simpl. unfold bind, log_blog_save, LoggedModel.log_action, bind.
  rewrite log_action_spec by assumption. reflexivity.
Qed.

Lemma post_save_blog_created w (b : Blog) :
  connected w = [] ->
  post_save_send BlogModel (IBlog b) true w = (Ok tt, w).
Proof.
  intros Hc. unfold post_save_send, bind, gets. rewrite Hc. reflexivity.
Qed.

(** C2 fails on the code for a second save of a blog: the [post_save]
    receiver [log_blog_save] and the [else] branch of [Blog.save] each write
    an [update] record, so the save leaves two of them, not one. *)
Theorem second_blog_save_logs_update_twice (w : World) (self : Blog) (k : Z) :
  writes_left w = None ->
  fresh_ids w ->
  connected w = [] ->
  blog_pk self = Some k ->
  row_exists blog_pk k (blog_table w) = true ->
  let after := Blog.save self w in
  outcome after = Ok self
  /\ exists r1 r2,
      actionlog_table (world_of after) = actionlog_table w ++ [r1; r2]
      /\ log_id r1 <> log_id r2
      /\ action_type r1 = "update" /\ action_type r2 = "update"
      /\ targets BlogModel k r1 = true /\ targets BlogModel k r2 = true.
Proof.
  intros Hw Hf Hc Hk Hrow. unfold Blog.save, bind, Model.save_Blog, gets, modify, bind.
  unfold save_table. rewrite Hk, Hrow. simpl.
  set (w1 := set_blog_table _ w).
  assert (writes_left w1 = None) as Hw1 by exact Hw.
  assert (fresh_ids w1) as Hf1 by exact Hf.
  assert (connected w1 = []) as Hc1 by exact Hc.
  rewrite post_save_blog_updated by assumption.
  unfold ret, LoggedModel.log_action.
  set (r1 := set_content_object (IBlog self) _).
  rewrite log_action_spec.
  - simpl. split; [reflexivity|].
    eexists r1, _. rewrite <- app_assoc. split; [reflexivity|].
    unfold targets. simpl. rewrite Hk. simpl.
    rewrite !bool_decide_eq_true_2 by reflexivity.
    repeat split. lia.
  - exact Hw1.
  - apply fresh_ids_appended; [exact Hf1 | reflexivity].
Qed.

Lemma second_blog_save_logs_update_twice_witness :
  let w := world_of (Blog.save hello world0) in
  let after := Blog.save hello1 w in
  outcome after = Ok hello1
  /\ exists r1 r2,
      actionlog_table (world_of after) = actionlog_table w ++ [r1; r2]
      /\ log_id r1 <> log_id r2
      /\ action_type r1 = "update" /\ action_type r2 = "update"
      /\ targets BlogModel 1 r1 = true /\ targets BlogModel 1 r2 = true.
Proof.
  apply (second_blog_save_logs_update_twice
           (world_of (Blog.save hello world0)) hello1 1);
    try reflexivity.
  repeat constructor.
Defined.

(** ** Deleting a target *)

Lemma preserves_ret {A} P (a : A) : preserves P (ret a).
Proof. intros w Hw. exact Hw. Qed.

Lemma preserves_raise {A} P e : preserves P (@raise A e).
Proof. intros w Hw. exact Hw. Qed.

Lemma preserves_bind {A B} P (m : M A) (k : A -> M B) :
  preserves P m -> (forall a, preserves P (k a)) -> preserves P (bind m k).
Proof.
  intros Hm Hk w Hw. unfold bind. specialize (Hm w Hw).
  destruct (m w) as [[a|e] w']; simpl in *; [apply Hk; exact Hm | exact Hm].
Qed.

Lemma establishes_bind {A B} P (m : M A) (k : A -> M B) :
  establishes P m -> (forall a, preserves P (k a)) -> establishes P (bind m k).
Proof.
  intros Hm Hk w. unfold bind. specialize (Hm w).
  destruct (m w) as [[a|e] w']; simpl in *; [apply Hk; exact Hm | exact Hm].
Qed.

Lemma preserves_for_each {A} P (xs : list A) (body : A -> M unit) :
  (forall x, In x xs -> preserves P (body x)) -> preserves P (for_each xs body).
Proof.
  induction xs as [|x rest IH]; simpl; intros Hbody.
  - apply preserves_ret.
  - apply preserves_bind; [apply Hbody; left; reflexivity|].
    intros _. apply IH. intros y Hy. apply Hbody. right. exact Hy.
Qed.

Lemma preserves_fetch_blog P k : preserves P (fetch_blog k).
Proof.
  intros w Hw. unfold fetch_blog. destruct (List.find _ _); exact Hw.
Qed.

Lemma preserves_fetch_user P k : preserves P (fetch_user k).
Proof.
  intros w Hw. unfold fetch_user. destruct (List.find _ _); exact Hw.
Qed.

(** Writing a record without a target keeps what appending keeps. *)
Lemma create_without_target_keeps Q action user desc ip ua :
  append_stable Q ->
  preserves (on_store Q)
            (ActionLog.objects.create action user None desc ip ua).
Proof.
  intros HQ w Hw. unfold ActionLog.objects.create, bind, uuid4, timezone_now,
    gets, actionlog_write, modify, ret. simpl.
  destruct (writes_left w) as [[|n]|]; simpl; try exact Hw;
    (apply HQ; [reflexivity | exact Hw]).
Qed.

(** The [post_delete] receivers only append records without a target. *)
Lemma post_delete_send_keeps Q sender instance :
  append_stable Q ->
  preserves (on_store Q) (post_delete_send sender instance).
Proof.
  intros HQ. unfold post_delete_send, send. apply preserves_for_each.
  intros r Hin. apply filter_In in Hin as [Hin _].
  destruct Hin as [<- | [<- | []]]; simpl.
  - unfold log_blog_delete. destruct instance; try apply preserves_raise.
    apply preserves_bind; [apply create_without_target_keeps; exact HQ|].
    intros _. apply preserves_ret.
  - unfold log_comment_delete. destruct instance; try apply preserves_raise.
    apply preserves_bind; [apply preserves_fetch_blog|]. intros blog.
    apply preserves_bind; [apply create_without_target_keeps; exact HQ|].
    intros _. apply preserves_ret.
Qed.

Lemma untargeted_append_stable m k :
  append_stable (Forall (fun log => targets m k log = false)).
Proof.
  intros table log Hnone Hall. apply Forall_app. split; [exact Hall|].
  constructor; [|constructor]. unfold targets. rewrite Hnone. reflexivity.
Qed.

Lemma In_append_stable (log : ActionLog) : append_stable (In log).
Proof. intros table r _ Hin. apply in_or_app. left. exact Hin. Qed.

Lemma post_delete_send_untargeted m k sender instance :
  preserves (untargeted m k) (post_delete_send sender instance).
Proof. apply post_delete_send_keeps, untargeted_append_stable. Qed.

Lemma preserves_modify_other P (f : World -> World) :
  (forall w, P w -> P (f w)) -> preserves P (modify f).
Proof. intros Hf w Hw. apply Hf. exact Hw. Qed.

Lemma establishes_gets_bind {A B} P (f : World -> A) (k : A -> M B) :
  (forall a, establishes P (k a)) -> establishes P (bind (gets f) k).
Proof. intros Hk w. unfold bind, gets. simpl. apply Hk. Qed.

Lemma untargeted_other_tables m k w w' :
  actionlog_table w' = actionlog_table w -> untargeted m k w -> untargeted m k w'.
Proof. unfold untargeted, on_store. intros ->. auto. Qed.

(** Once [Model.delete] has run for a blog, nothing in the store points at
    that blog any more. *)
Lemma delete_Blog_untargeted (self : Blog) (k : Z) (w : World) :
  blog_pk self = Some k ->
  outcome (Model.delete_Blog self w) = Ok tt ->
  untargeted BlogModel k (world_of (Model.delete_Blog self w)).
Proof.
  intros Hk. unfold Model.delete_Blog. rewrite Hk. unfold atomic.
  match goal with |- context [match ?inner w with _ => _ end] =>
    assert (untargeted BlogModel k (world_of (inner w))) as Hinner;
      [|destruct (inner w) as [[[]|e] w']; simpl;
        [intros _; exact Hinner | discriminate]]
  end.
  revert w. apply establishes_gets_bind. intros comments.
  apply establishes_bind; [|intros _; apply post_delete_send_untargeted].
  apply establishes_bind;
    [|intros _; apply preserves_modify_other; intros w;
      apply untargeted_other_tables; reflexivity].
  apply establishes_bind;
    [|intros _; apply preserves_for_each; intros c _;
      apply post_delete_send_untargeted].
  apply establishes_bind;
    [|intros _; apply preserves_modify_other; intros w;
      apply untargeted_other_tables; reflexivity].
  intros w. unfold untargeted, on_store. simpl. apply Forall_forall. intros log Hin.
  apply list_elem_of_In, filter_In in Hin as [_ Hp].
  apply negb_true_iff, orb_false_iff in Hp as [_ Hp]. exact Hp.
Qed.

(** C1 fails on the code: [LoggedModel.action_logs] is a [GenericRelation],
    so deleting a blog deletes the records that point at it.  Whenever
    [Blog.delete] succeeds, no record that pointed at the blog is left, the
    [delete] record that [Blog.delete] itself wrote a moment before
    included. *)
Theorem blog_delete_destroys_the_records_of_the_blog
  (w : World) (self : Blog) (k : Z) (log : ActionLog) :
  blog_pk self = Some k ->
  outcome (Blog.delete self w) = Ok tt ->
  targets BlogModel k log = true ->
  ~ In log (actionlog_table (world_of (Blog.delete self w))).
Proof.
  intros Hk Hok Htarget Hin. unfold Blog.delete, bind in *.
  destruct (LoggedModel.log_action _ _ _ _ _ _ w) as [[written|e] w1];
    [|discriminate].
  pose proof (delete_Blog_untargeted self k w1 Hk Hok) as Hnone.
  unfold untargeted, on_store in Hnone. rewrite Forall_forall in Hnone.
  apply list_elem_of_In, Hnone in Hin. congruence.
Qed.

Lemma blog_delete_destroys_the_records_of_the_blog_witness :
  let w := world_of (Blog.save hello world0) in
  let log := set_content_object (IBlog hello1)
               (new_record world0 "create" (Some 1) None
                  ("Створено блог: " +:+ "Hello") None EmptyString) in
  (In hello1 (blog_table w) /\ In log (actionlog_table w))
  /\ ~ In log (actionlog_table (world_of (Blog.delete hello1 w))).
Proof.
  split.
  - split; left; reflexivity.
  - apply (blog_delete_destroys_the_records_of_the_blog
             (world_of (Blog.save hello world0)) hello1 1); reflexivity.
Defined.

(** What is left after the blog of [hello] was saved and then deleted: the
    one record written by the [post_delete] receiver, which has no target.
    The history of the blog is empty. *)
Example store_after_blog_delete :
  map (fun log => (action_type log, content_type log, object_id log, description log))
      (actionlog_table
         (world_of (Blog.delete hello1 (world_of (Blog.save hello world0)))))
  = [("delete", None, None, "Видалено блог: Hello")]
  /\ blog_table (world_of (Blog.delete hello1 (world_of (Blog.save hello world0))))
     = []
  /\ QuerySet.fetch
       (LoggedModel.get_action_logs (IBlog hello1)
          (world_of (Blog.delete hello1 (world_of (Blog.save hello world0)))))
     = [].
Proof. repeat split. Qed.

(** ** Deleting an actor *)

Lemma bind_keeps {A B} (P : World -> Prop) (m : M A) (k : A -> M B) w :
  P (world_of (m w)) -> (forall a, preserves P (k a)) ->
  P (world_of (bind m k w)).
Proof.
  intros Hm Hk. unfold bind.
  destruct (m w) as [[a|e] w']; simpl in *; [apply Hk; exact Hm | exact Hm].
Qed.

Lemma targets_clear_user m k log : targets m k (clear_user log) = targets m k log.
Proof. reflexivity. Qed.

Lemma clear_users_untargeted m k (u : Z) :
  preserves (untargeted m k)
    (modify (set_actionlog_table
               (map (fun l => if bool_decide (log_user l = Some u)
                              then clear_user l else l)))).
Proof.
  apply preserves_modify_other. intros w. unfold untargeted, on_store. simpl.
  intros Hw. apply Forall_map. eapply Forall_impl; [exact Hw|].
  intros l Hl. simpl. destruct (bool_decide _); [rewrite targets_clear_user|];
    exact Hl.
Qed.

Lemma generic_related_member m pks k log :
  In k pks -> targets m k log = true -> Model.generic_related m pks log = true.
Proof.
  intros Hin Ht. unfold Model.generic_related. apply existsb_exists.
  exists k. split; assumption.
Qed.

(** Once [Model.delete] has run for a user, nothing in the store points at
    a profile that belonged to the user. *)
Lemma delete_User_untargeted (self : User) (k pk : Z) (p : UserProfile) (w : World) :
  user_pk self = Some k ->
  In p (userprofile_table w) ->
  profile_user p = k ->
  profile_pk p = Some pk ->
  outcome (Model.delete_User self w) = Ok tt ->
  untargeted UserProfileModel pk (world_of (Model.delete_User self w)).
Proof.
  intros Hk Hp Hu Hpk. unfold Model.delete_User. rewrite Hk. unfold atomic.
  match goal with |- context [match ?inner w with _ => _ end] =>
    assert (untargeted UserProfileModel pk (world_of (inner w))) as Hinner;
      [|destruct (inner w) as [[[]|e] w']; simpl;
        [intros _; exact Hinner | discriminate]]
  end.
  unfold bind at 1, gets at 1. simpl.
  unfold bind at 1, gets at 1. simpl.
  unfold bind at 1, gets at 1. simpl.
  apply bind_keeps; [|intros _; apply post_delete_send_untargeted].
  apply bind_keeps;
    [|intros _; apply preserves_modify_other; intros w0;
      apply untargeted_other_tables; reflexivity].
  apply bind_keeps;
    [|intros _; apply preserves_for_each; intros x _;
      apply post_delete_send_untargeted].
  apply bind_keeps;
    [|intros _; apply preserves_modify_other; intros w0;
      apply untargeted_other_tables; reflexivity].
  apply bind_keeps;
    [|intros _; apply preserves_for_each; intros x _;
      apply post_delete_send_untargeted].
  apply bind_keeps;
    [|intros _; apply preserves_modify_other; intros w0;
      apply untargeted_other_tables; reflexivity].
  apply bind_keeps;
    [|intros _; apply preserves_for_each; intros x _;
      apply post_delete_send_untargeted].
  apply bind_keeps;
    [|intros _; apply preserves_modify_other; intros w0;
      apply untargeted_other_tables; reflexivity].
  apply bind_keeps; [|intros _; apply clear_users_untargeted].
  unfold untargeted, on_store. simpl. apply Forall_forall. intros log Hin.
  apply list_elem_of_In, filter_In in Hin as [_ Hkeep].
  apply negb_true_iff, orb_false_iff in Hkeep as [_ Hkeep].
  destruct (targets UserProfileModel pk log) eqn:Ht; [|reflexivity].
  rewrite (generic_related_member UserProfileModel _ pk log) in Hkeep;
    [discriminate | | exact Ht].
  apply list_elem_of_In, list_elem_of_omap. exists p. split; [|exact Hpk].
  apply list_elem_of_In, filter_In. split; [exact Hp|].
  rewrite Hu. apply Z.eqb_refl.
Qed.

(** C6 fails on the code for the records about the user's own profile:
    [UserProfile.user] cascades, and the [GenericRelation] of [LoggedModel]
    then deletes the records that point at the profile.  Whenever
    [User.delete] succeeds, a record with that actor and that target is not
    left in the store, neither as it was nor with its actor cleared. *)
Theorem user_delete_destroys_the_records_of_the_profile
  (w : World) (self : User) (k pk : Z) (p : UserProfile) (log : ActionLog) :
  user_pk self = Some k ->
  In p (userprofile_table w) ->
  profile_user p = k ->
  profile_pk p = Some pk ->
  outcome (User.delete self w) = Ok tt ->
  log_user log = Some k ->
  targets UserProfileModel pk log = true ->
  ~ In log (actionlog_table (world_of (User.delete self w)))
  /\ ~ In (clear_user log) (actionlog_table (world_of (User.delete self w))).
Proof.
  intros Hk Hp Hu Hpk Hok _ Htarget.
  pose proof (delete_User_untargeted self k pk p w Hk Hp Hu Hpk Hok) as Hnone.
  unfold untargeted, on_store in Hnone. rewrite Forall_forall in Hnone.
  split; intros Hin; apply list_elem_of_In, Hnone in Hin.
  - congruence.
  - rewrite targets_clear_user in Hin. congruence.
Qed.

Lemma user_delete_destroys_the_records_of_the_profile_witness :
  let w := world_of (UserProfile.save profile0 world0) in
  let log := set_content_object (IUserProfile profile1)
               (new_record (appended (new_record world0 "create" (Some 1)
                                        (Some (IUserProfile profile1))
                                        ("Create профілю " +:+ "alice")
                                        None EmptyString) world0)
                  "create" (Some 1) None
                  ("Створено профіль для " +:+ "alice") None EmptyString) in
  In log (actionlog_table w)
  /\ ~ In log (actionlog_table (world_of (User.delete alice w)))
  /\ ~ In (clear_user log) (actionlog_table (world_of (User.delete alice w))).
Proof.
  split.
  - right; left; reflexivity.
  - apply (user_delete_destroys_the_records_of_the_profile
             (world_of (UserProfile.save profile0 world0)) alice 1 1 profile1);
      try reflexivity.
    left; reflexivity.
Defined.

(** Saving the profile of [alice] and then deleting [alice] leaves the store
    empty: both records of the profile went with it. *)
Example store_after_user_delete :
  length (actionlog_table (world_of (UserProfile.save profile0 world0))) = 2%nat
  /\ outcome (User.delete alice (world_of (UserProfile.save profile0 world0)))
     = Ok tt
  /\ actionlog_table
       (world_of (User.delete alice (world_of (UserProfile.save profile0 world0))))
     = [].
Proof. repeat split. Qed.

(** ** When the logging step fails *)

(** The receiver connected for every sender changes nothing and writes
    nothing. *)
Lemma universal_log_save_does_nothing sender instance created w :
  universal_log_save sender instance created w = (Ok tt, w).
Proof.
  unfold universal_log_save.
  destruct (bool_decide _); [reflexivity|].
  destruct (has_action_logs instance); reflexivity.
Qed.

Lemma log_action_refused w user action obj desc ip ua :
  writes_left w = Some 0%nat ->
  ActionLog.log_action user action obj desc ip ua w
  = (Raise DatabaseError, set_uuid4_next (uuid4_next w + 1) w).
Proof.
  intros Hw. unfold ActionLog.log_action, bind.
  rewrite create_refused by exact Hw. reflexivity.
Qed.

Lemma replace_row_In {R} (pk : R -> option Z) k (self : R) table :
  row_exists pk k table = true -> In self (replace_row pk k self table).
Proof.
  unfold row_exists, replace_row. induction table as [|r rest IH]; simpl;
    [discriminate|].
  destruct (has_pk pk k r); simpl; [intros _; left; reflexivity|].
  intros H. right. apply IH. exact H.
Qed.

(** The view hook swallows whatever goes wrong inside it. *)
Lemma log_user_action_never_raises self request response w :
  outcome (ActionLoggingMixin.log_user_action self request response w) = Ok tt.
Proof.
  unfold ActionLoggingMixin.log_user_action, try_except, bind.
  destruct (view_object self) as [[o|]|]; simpl; try reflexivity.
  destruct (view_get_object self) as [get_object|]; simpl; [|reflexivity].
  unfold try_except. destruct (get_object w) as [[[o|]|e] w']; reflexivity.
Qed.

(** The view hook never writes a record either: the keyword
    [additional_data] and the class passed as [content_type] make the
    constructor raise, and the hook logs the error and goes on. *)
Lemma log_user_action_writes_nothing self request response w :
  view_get_object self = None ->
  actionlog_table
    (world_of (ActionLoggingMixin.log_user_action self request response w))
  = actionlog_table w
  /\ exists e,
      logger_errors
        (world_of (ActionLoggingMixin.log_user_action self request response w))
      = logger_errors w ++ [e].
Proof.
  intros Hget. unfold ActionLoggingMixin.log_user_action, try_except, bind.
  rewrite Hget.
  destruct (view_object self) as [[o|]|]; simpl;
    (split; [reflexivity | eexists; reflexivity]).
Qed.

Lemma registered_receivers_refused (b : Blog) created (cs : list ModelClass) w :
  writes_left w = Some 0%nat ->
  passes_or_is_refused
    (for_each
       (List.filter (listens BlogModel)
          (map (fun k => (Some k, log_model_save k)) cs))
       (fun r => snd r BlogModel (IBlog b) created))
    w.
Proof.
  intros Hw. induction cs as [|c cs IH]; simpl.
  - exists w. split; [left; reflexivity | split; [exact Hw | reflexivity]].
  - unfold listens at 1. simpl. destruct (bool_decide (c = BlogModel)) eqn:Hc.
    + apply bool_decide_eq_true in Hc. subst c. simpl.
      unfold passes_or_is_refused.
      unfold bind at 1, log_model_save, bind, str_of, ret.
      rewrite create_refused by exact Hw.
      eexists. split; [right; reflexivity | split; [exact Hw | reflexivity]].
    + exact IH.
Qed.

Lemma post_save_blog_refused (b : Blog) created w :
  writes_left w = Some 0%nat ->
  passes_or_is_refused (post_save_send BlogModel (IBlog b) created) w.
Proof.
  intros Hw. unfold passes_or_is_refused, post_save_send, bind, gets, send.
  simpl. unfold bind at 1. destruct created.
  - unfold log_blog_save, ret, bind. rewrite universal_log_save_does_nothing.
    apply registered_receivers_refused. exact Hw.
  - unfold log_blog_save, LoggedModel.log_action, bind.
    rewrite log_action_refused by exact Hw.
    eexists. split; [right; reflexivity | split; [exact Hw | reflexivity]].
Qed.

(** C3, as the code has it.  Only the view hook [log_user_action] recovers
    from a failure of the logging step.  The model methods do not: when the
    store refuses the write, [Blog.delete] raises before anything is
    deleted, and [Blog.save] raises after the row of the blog was written. *)
Theorem logging_failure_reaches_the_caller_of_a_mutation
  (w : World) (self : Blog) (view : View) (request : HttpRequest)
  (response : HttpResponse) :
  writes_left w = Some 0%nat ->
  (outcome (Blog.delete self w) = Raise DatabaseError
   /\ blog_table (world_of (Blog.delete self w)) = blog_table w
   /\ actionlog_table (world_of (Blog.delete self w)) = actionlog_table w)
  /\ (outcome (Blog.save self w) = Raise DatabaseError
      /\ exists saved,
          In saved (blog_table (world_of (Blog.save self w)))
          /\ title saved = title self /\ content saved = content self
          /\ blog_author saved = blog_author self)
  /\ outcome (ActionLoggingMixin.log_user_action view request response w) = Ok tt.
Proof.
  intros Hw. split; [|split].
  - unfold Blog.delete, bind, LoggedModel.log_action.
    rewrite log_action_refused by exact Hw. repeat split.
  - unfold Blog.save, bind, Model.save_Blog, gets, modify, bind,
      LoggedModel.log_action.
    set (saved := save_table blog_pk set_blog_pk self (blog_table w)).
    set (w1 := set_blog_table (fun _ => snd saved) w).
    assert (In (fst (fst saved)) (blog_table w1)
            /\ title (fst (fst saved)) = title self
            /\ content (fst (fst saved)) = content self
            /\ blog_author (fst (fst saved)) = blog_author self) as Hsaved.
    { subst w1 saved. unfold save_table.
      destruct (blog_pk self) as [k|] eqn:Hk.
      - destruct (row_exists blog_pk k (blog_table w)) eqn:Hrow; simpl.
        + split; [apply replace_row_In; exact Hrow | repeat split].
        + split; [apply in_or_app; right; left; reflexivity | repeat split].
      - simpl. split; [apply in_or_app; right; left; reflexivity | repeat split]. }
    destruct (post_save_blog_refused (fst (fst saved)) (snd (fst saved)) w1 Hw)
      as (w2 & [Hrun | Hrun] & Hw2 & Htable); simpl; rewrite Hrun.
    + unfold ret.
      assert (forall action desc,
                 ActionLog.log_action (Some (blog_author (fst (fst saved))))
                   action (Some (IBlog (fst (fst saved)))) desc None EmptyString w2
                 = (Raise DatabaseError, set_uuid4_next (uuid4_next w2 + 1) w2))
        as Hrefused by (intros; apply log_action_refused; exact Hw2).
      destruct (bool_decide (blog_pk self = None)); rewrite Hrefused; simpl;
        (split; [reflexivity|]); exists (fst (fst saved)); rewrite Htable;
        exact Hsaved.
    + simpl. split; [reflexivity|]. exists (fst (fst saved)). rewrite Htable.
      exact Hsaved.
  - apply log_user_action_never_raises.
Qed.

Lemma logging_failure_reaches_the_caller_of_a_mutation_witness :
  (outcome (Blog.delete hello1 world_refusing_writes) = Raise DatabaseError
   /\ blog_table (world_of (Blog.delete hello1 world_refusing_writes))
      = blog_table world_refusing_writes
   /\ actionlog_table (world_of (Blog.delete hello1 world_refusing_writes))
      = actionlog_table world_refusing_writes)
  /\ (outcome (Blog.save hello1 world_refusing_writes) = Raise DatabaseError
      /\ exists saved,
          In saved (blog_table (world_of (Blog.save hello1 world_refusing_writes)))
          /\ title saved = title hello1 /\ content saved = content hello1
          /\ blog_author saved = blog_author hello1)
  /\ outcome (ActionLoggingMixin.log_user_action blog_detail_view plain_request
                {| status_code := 200 |} world_refusing_writes) = Ok tt.
Proof.
  apply (logging_failure_reaches_the_caller_of_a_mutation
           world_refusing_writes hello1 blog_detail_view plain_request
           {| status_code := 200 |}); reflexivity.
Defined.

(** C3 as stated fails: with the store refusing the write, [Blog.delete]
    raises and the blog is still there. *)
Lemma blog_delete_is_blocked_by_a_logging_failure :
  In hello1 (blog_table world_refusing_writes)
  /\ outcome (Blog.delete hello1 world_refusing_writes) = Raise DatabaseError
  /\ In hello1 (blog_table (world_of (Blog.delete hello1 world_refusing_writes))).
Proof. repeat split; left; reflexivity. Qed.

(** ** The generic receivers *)





(** The record of the witness, in full. *)
Example record_of_a_registered_article :
  actionlog_table
    (world_of (post_save_send (OtherModel "Article") (IOther article) true
                 (world_of (register_model_signals (OtherModel "Article") world0))))
  = [ {| log_id := 1; action_type := "create"; timestamp := 1000;
         log_user := Some 1; content_type := Some (OtherModel "Article");
         object_id := Some "7"; description := "Create Article: An article";
         ip_address := None; user_agent := EmptyString |} ].
Proof. reflexivity. Qed.


(** What [SET_NULL] does by itself: a record with the deleted user as its
    actor that points at no blog, comment or profile stays in the store,
    with its actor cleared. *)
Lemma generic_related_other_kind m pks log :
  content_type log <> Some m -> Model.generic_related m pks log = false.
Proof.
  intros Hne. unfold Model.generic_related.
  induction pks as [|k pks IH]; simpl; [reflexivity|].
  rewrite IH. unfold targets.
  rewrite bool_decide_eq_false_2 by exact Hne. reflexivity.
Qed.

(** X17.  Whenever [User.delete] succeeds, a stored record with that user
    as actor that points at no blog, comment or profile is still stored,
    with its actor cleared and nothing else changed. *)
Lemma user_delete_clears_the_actor
  (w : World) (self : User) (k : Z) (log : ActionLog) :
  user_pk self = Some k ->
  outcome (User.delete self w) = Ok tt ->
  In log (actionlog_table w) ->
  log_user log = Some k ->
  (forall m, content_type log = Some m -> has_GenericRelation m = false) ->
  In (clear_user log) (actionlog_table (world_of (User.delete self w))).
Proof.
  intros Hk Hok Hin Hactor Hkind. revert Hok.
  unfold User.delete, Model.delete_User. rewrite Hk. unfold atomic.
  match goal with |- context [match ?inner w with _ => _ end] =>
    assert (on_store (In (clear_user log)) (world_of (inner w))) as Hinner;
      [|destruct (inner w) as [[[]|e] w']; simpl;
        [intros _; exact Hinner | discriminate]]
  end.
  unfold bind at 1, gets at 1. simpl.
  unfold bind at 1, gets at 1. simpl.
  unfold bind at 1, gets at 1. simpl.
  apply bind_keeps;
    [|intros _; apply post_delete_send_keeps, In_append_stable].
  apply bind_keeps; [|intros _; apply preserves_modify_other; auto].
  apply bind_keeps;
    [|intros _; apply preserves_for_each; intros x _;
      apply post_delete_send_keeps, In_append_stable].
  apply bind_keeps; [|intros _; apply preserves_modify_other; auto].
  apply bind_keeps;
    [|intros _; apply preserves_for_each; intros x _;
      apply post_delete_send_keeps, In_append_stable].
  apply bind_keeps; [|intros _; apply preserves_modify_other; auto].
  apply bind_keeps;
    [|intros _; apply preserves_for_each; intros x _;
      apply post_delete_send_keeps, In_append_stable].
  apply bind_keeps; [|intros _; apply preserves_modify_other; auto].
  unfold bind, modify, on_store. simpl.
  apply in_map_iff. exists log. split.
  - rewrite bool_decide_eq_true_2 by exact Hactor. reflexivity.
  - apply filter_In. split; [exact Hin|].
    rewrite !generic_related_other_kind; [reflexivity | | |];
      intros Hm; apply Hkind in Hm; discriminate.
Qed.

(** ** The lifecycle of the three kinds, run *)

(** A first save of a blog writes one [create] record. *)
Example first_blog_save :
  map summary (actionlog_table (world_of (Blog.save hello world0)))
  = [("create", Some BlogModel, Some "1", Some 1)].
Proof. reflexivity. Qed.

(** A first save of a blog that brings its own key is logged as [update]. *)
Example first_save_with_a_key :
  row_exists blog_pk 5 (blog_table world0) = false
  /\ map summary (actionlog_table (world_of (Blog.save imported world0)))
     = [("update", Some BlogModel, Some "5", Some 1)].
Proof. split; reflexivity. Qed.

(** A first save of a profile writes two [create] records: one by the
    receiver [log_profile_save], one by [UserProfile.save]. *)
Example first_profile_save :
  map summary (actionlog_table (world_of (UserProfile.save profile0 world0)))
  = [("create", Some UserProfileModel, Some "1", Some 1);
     ("create", Some UserProfileModel, Some "1", Some 1)].
Proof. reflexivity. Qed.

(** Deleting a profile writes no [delete] record, and takes the records of
    the profile with it. *)
Example profile_delete :
  outcome (UserProfile.delete profile1
             (world_of (UserProfile.save profile0 world0))) = Ok tt
  /\ actionlog_table
       (world_of (UserProfile.delete profile1
                    (world_of (UserProfile.save profile0 world0))))
     = [].
Proof. split; reflexivity. Qed.

(** A comment is logged once per step: [create] by [Comment.save], [update]
    by the receiver [log_comment_save], [delete] by [log_comment_delete]. *)
Example comment_lifecycle :
  let w1 := world_of (Blog.save hello world0) in
  let w2 := world_of (Comment.save comment0 w1) in
  let w3 := world_of (Comment.save comment1 w2) in
  let w4 := world_of (Comment.delete comment1 w3) in
  map summary (actionlog_table w2)
  = map summary (actionlog_table w1)
    ++ [("create", Some CommentModel, Some "1", Some 1)]
  /\ map summary (actionlog_table w3)
     = map summary (actionlog_table w2)
       ++ [("update", Some CommentModel, Some "1", Some 1)]
  /\ map summary (actionlog_table w4)
     = map summary (actionlog_table w1) ++ [("delete", None, None, Some 1)].
Proof. repeat split. Qed.

(* ===================================================================== *)
(** * Further properties of the code *)
(* ===================================================================== *)

(** ** Shortened texts *)






(** The admin column shows a comment as the model property does. *)
Lemma admin_preview_is_the_property (obj : Comment) :
  CommentAdmin.preview obj = Comment.preview obj.
Proof. reflexivity. Qed.

Example preview_of_a_long_comment :
  String.length (text long_comment) = 200%nat
  /\ String.length (Comment.preview long_comment) = 103%nat.
Proof. split; reflexivity. Qed.

(** ** The list views *)

(** X3.  When [ActionLogListView.get_queryset] answers, the listing holds
    exactly the stored records that pass both filters: a [user_id] that is
    given and not empty keeps the records of that actor, an [action_type]
    that is given and not empty keeps the records of that action; a filter
    that is absent or empty keeps everything. *)
Theorem action_log_list_filters
  (request : HttpRequest) (w : World) (q : QuerySet.t) (l : list ActionLog)
  (log : ActionLog) :
  ActionLogListView.get_queryset request w = Ok q ->
  QuerySet.answers q l ->
  In log l
  <-> In log (actionlog_table w)
      /\ match QueryDict_get (GET request) "user_id" with
         | Some value =>
             value = EmptyString
             \/ exists n, int_of_str value = Some n /\ log_user log = Some n
         | None => True
         end
      /\ match QueryDict_get (GET request) "action_type" with
         | Some value => value = EmptyString \/ action_type log = value
         | None => True
         end.
Proof.
  unfold ActionLogListView.get_queryset. intros Hq [Hperm _].
  assert (In log l <-> In log (QuerySet.rows q)) as ->.
  { split; apply Permutation_in; [symmetry|]; exact Hperm. }
  clear Hperm l.
  destruct (QueryDict_get (GET request) "user_id") as [uid|];
    destruct (QueryDict_get (GET request) "action_type") as [act|];
    simpl in Hq;
    repeat match type of Hq with
      | context [String.eqb ?v EmptyString] =>
          destruct (String.eqb_spec v EmptyString); simpl in Hq
      | context [int_of_str ?v] =>
          destruct (int_of_str v) eqn:?; simpl in Hq
      end;
    try discriminate; injection Hq as <-; simpl;
    rewrite ?filter_In, ?bool_decide_eq_true;
    split; intros H; repeat split;
    try tauto; try (left; assumption); try (right; tauto);
    try (right; eexists; split; [reflexivity | tauto]).
  all: try (destruct H as (? & [? | (? & ? & ?)] & ?); congruence).
  all: try (destruct H as (? & [? | (? & ? & ?)] & [? | ?]); congruence).
  all: try (destruct H as (? & ? & [? | ?]); congruence).
Qed.

Lemma action_log_list_filters_witness :
  In (record 1 1000 (Some BlogModel) (Some "1"))
     [record 3 1002 (Some BlogModel) (Some "2");
      record 2 1001 (Some CommentModel) (Some "1");
      record 1 1000 (Some BlogModel) (Some "1")]
  <-> In (record 1 1000 (Some BlogModel) (Some "1"))
         (actionlog_table world_with_overlapping_ids)
      /\ match QueryDict_get (GET request_user_1_views) "user_id" with
         | Some value =>
             value = EmptyString
             \/ exists n, int_of_str value = Some n
                          /\ log_user (record 1 1000 (Some BlogModel) (Some "1"))
                             = Some n
         | None => True
         end
      /\ match QueryDict_get (GET request_user_1_views) "action_type" with
         | Some value =>
             value = EmptyString
             \/ action_type (record 1 1000 (Some BlogModel) (Some "1")) = value
         | None => True
         end.
Proof.
  apply (action_log_list_filters request_user_1_views world_with_overlapping_ids
           (QuerySet.filter (fun log => bool_decide (action_type log = "view"))
              (QuerySet.filter (fun log => bool_decide (log_user log = Some 1))
                 (ActionLog.objects.all world_with_overlapping_ids)))).
  - reflexivity.
  - split.
    + apply (Permutation_rev
               [record 1 1000 (Some BlogModel) (Some "1");
                record 2 1001 (Some CommentModel) (Some "1");
                record 3 1002 (Some BlogModel) (Some "2")]).
    + repeat constructor; apply may_precede_default; simpl; lia.
Defined.



(** [BlogListView] shows a visitor who is not logged in the published
    blogs only, and a logged-in visitor every blog, the unpublished blogs of
    other authors included. *)
Theorem blog_list_hides_drafts_from_anonymous_visitors_only
  (request : HttpRequest) (w : World) (b : Blog) :
  In b (BlogListView.get_queryset request w)
  <-> In b (blog_table w)
      /\ (request_user request = None -> is_published b = true).
Proof.
  unfold BlogListView.get_queryset.
  destruct (request_user request) as [user|].
  - split; [intros H; split; [exact H | discriminate] | intros [H _]; exact H].
  - rewrite filter_In. split; intros [Hin Hp]; split; auto.
Qed.


Example drafts_and_visitors :
  BlogListView.get_queryset anonymous_request world_with_draft = [hello1]
  /\ BlogListView.get_queryset request_of_bob world_with_draft = [hello1; draft]
  /\ PublicPrivateMixin.get_queryset PublicPrivateMixin.defaults request_of_bob
       false (blog_table world_with_draft) = [hello1]
  /\ PublicPrivateMixin.get_queryset PublicPrivateMixin.defaults plain_request
       false (blog_table world_with_draft) = [hello1; draft].
Proof. repeat split. Qed.

(** ** The history of an object *)




(** X7.  [ObjectLogsMixin.get_context_data] never raises, whatever
    [get_object] does: when [get_object] fails, [object_logs] is the empty
    list; when it gives an object, [object_logs] is the query for the
    records of that object, cut to [logs_limit]. *)
Theorem object_logs_context_never_raises
  (include_logs : bool) (get_object : option (M (option Instance))) (w : World) :
  exists entry,
    outcome (ObjectLogsMixin.get_context_data include_logs get_object w) = Ok entry
    /\ match get_object with
       | Some get_object =>
           if include_logs
           then match outcome (get_object w) with
                | Raise _ => entry = ObjectLogsMixin.empty_list
                | Ok None => entry = ObjectLogsMixin.not_set
                | Ok (Some obj) =>
                    entry = ObjectLogsMixin.logs_query
                              (ObjectLogsMixin.object_logs obj
                                 (world_of (get_object w)))
                              ObjectLogsMixin.logs_limit
                end
           else entry = ObjectLogsMixin.not_set
       | None => entry = ObjectLogsMixin.not_set
       end.
Proof.
  unfold ObjectLogsMixin.get_context_data.
  destruct get_object as [get_object|]; [|eexists; split; reflexivity].
  destruct include_logs; [|eexists; split; reflexivity].
  unfold try_except, bind.
  destruct (get_object w) as [[[obj|]|e] w']; simpl; eexists; split; reflexivity.
Qed.

(** ** Emitting and reading back *)

(** X8.  With a working store, [obj.log_action(...)] on a saved object
    returns a record with the given actor, action, description, address and
    client signature, stamped with the current time, and the history of the
    object is what it was plus this record at the end. *)
Theorem log_action_shows_in_the_history
  (w : World) (self : Instance) (k : Z) (user : option Z)
  (action desc : string) (ip : option string) (ua : string) :
  writes_left w = None ->
  fresh_ids w ->
  pk_of self = Some k ->
  let after := LoggedModel.log_action self user action desc ip ua w in
  exists log,
    outcome after = Ok log
    /\ action_type log = action /\ log_user log = user
    /\ description log = desc /\ ip_address log = ip /\ user_agent log = ua
    /\ timestamp log = clock w
    /\ targets (class_of self) k log = true
    /\ QuerySet.rows (LoggedModel.get_action_logs self (world_of after))
       = QuerySet.rows (LoggedModel.get_action_logs self w) ++ [log].
Proof.
  intros Hw Hf Hk. unfold LoggedModel.log_action. simpl.
  rewrite log_action_spec by assumption. simpl.
  eexists. split; [reflexivity|].
  repeat (split; [reflexivity|]).
  unfold targets. simpl. rewrite Hk. simpl.
  rewrite !bool_decide_eq_true_2 by reflexivity.
  split; [reflexivity|].
  rewrite List.filter_app. simpl. rewrite Hk. simpl.
  rewrite !bool_decide_eq_true_2 by reflexivity. reflexivity.
Qed.

Lemma log_action_shows_in_the_history_witness :
  let w := world_of (Blog.save hello world0) in
  let after := LoggedModel.log_action (IBlog hello1) (Some 1) "view" "seen"
                 (Some "10.0.0.1") "curl" w in
  exists log,
    outcome after = Ok log
    /\ action_type log = "view" /\ log_user log = Some 1
    /\ description log = "seen" /\ ip_address log = Some "10.0.0.1"
    /\ user_agent log = "curl"
    /\ timestamp log = clock w
    /\ targets (class_of (IBlog hello1)) 1 log = true
    /\ QuerySet.rows (LoggedModel.get_action_logs (IBlog hello1) (world_of after))
       = QuerySet.rows (LoggedModel.get_action_logs (IBlog hello1) w) ++ [log].
Proof.
  apply (log_action_shows_in_the_history
           (world_of (Blog.save hello world0)) (IBlog hello1) 1);
    [reflexivity | repeat constructor | reflexivity].
Defined.




(** X10.  A key that no stored record has is answered with [Http404], and
    nothing changes. *)
Theorem unknown_record_is_not_found (w : World) (pk : Z) :
  Forall (fun log => log_id log <> pk) (actionlog_table w) ->
  ActionLogDetailView.get_object pk w = (Raise Http404, w).
Proof.
  intros Hnone. unfold ActionLogDetailView.get_object.
  destruct (List.find _ _) as [log|] eqn:Hfind; [|reflexivity].
  apply find_some in Hfind as [Hin Hsame].
  rewrite Forall_forall in Hnone. apply list_elem_of_In, Hnone in Hin.
  unfold ActionLog.same_id in Hsame. apply Z.eqb_eq in Hsame. contradiction.
Qed.

Lemma unknown_record_is_not_found_witness :
  ActionLogDetailView.get_object 99 world_with_tie = (Raise Http404, world_with_tie).
Proof.
  apply (unknown_record_is_not_found world_with_tie 99).
  repeat constructor; discriminate.
Defined.

(** X11.  [ActionLog.log_action] without a target is one write: a store
    that accepts [n + 1] more writes accepts [n] afterwards, and holds one
    more record, which has the given fields and no target. *)
Theorem log_action_without_target_is_one_write
  (w : World) (n : nat) (user : option Z) (action desc : string)
  (ip : option string) (ua : string) :
  writes_left w = Some (S n) ->
  let after := ActionLog.log_action user action None desc ip ua w in
  exists log,
    outcome after = Ok log
    /\ actionlog_table (world_of after) = actionlog_table w ++ [log]
    /\ writes_left (world_of after) = Some n
    /\ action_type log = action /\ log_user log = user
    /\ description log = desc /\ ip_address log = ip /\ user_agent log = ua
    /\ content_type log = None /\ object_id log = None.
Proof.
  intros Hw. unfold ActionLog.log_action, ActionLog.objects.create, bind, uuid4,
    timezone_now, gets, actionlog_write, modify, ret.
  simpl. rewrite Hw. simpl.
  eexists. split; [reflexivity|]. repeat split.
Qed.

Lemma log_action_without_target_is_one_write_witness :
  let w := set_writes_left (Some 1%nat) world0 in
  let after := ActionLog.log_action (Some 1) "login" None "Signed in" None
                 EmptyString w in
  exists log,
    outcome after = Ok log
    /\ actionlog_table (world_of after) = actionlog_table w ++ [log]
    /\ writes_left (world_of after) = Some 0%nat
    /\ action_type log = "login" /\ log_user log = Some 1
    /\ description log = "Signed in" /\ ip_address log = None
    /\ user_agent log = EmptyString
    /\ content_type log = None /\ object_id log = None.
Proof.
  apply (log_action_without_target_is_one_write
           (set_writes_left (Some 1%nat) world0) 0).
  reflexivity.
Defined.

(** ** Saving *)

Lemma pk_below_fresh {R} (pk : R -> option Z) (table : list R) (r : R) (k : Z) :
  In r table -> pk r = Some k -> k < fresh_pk pk table.
Proof.
  unfold fresh_pk. induction table as [|r' table IH]; simpl; [intros []|].
  intros [-> | Hin] Hk.
  - rewrite Hk. simpl. lia.
  - specialize (IH Hin Hk). lia.
Qed.

Lemma fresh_pk_unused {R} (pk : R -> option Z) (table : list R) :
  row_exists pk (fresh_pk pk table) table = false.
Proof.
  unfold row_exists. destruct (existsb _ _) eqn:Hex; [|reflexivity].
  apply existsb_exists in Hex as (r & Hin & Hr).
  unfold has_pk in Hr. apply bool_decide_eq_true in Hr.
  pose proof (pk_below_fresh pk table r _ Hin Hr). lia.
Qed.

Lemma first_blog_save_spec (w : World) (self : Blog) :
  working w ->
  blog_pk self = None ->
  Blog.save self w
  = (Ok (set_blog_pk (fresh_pk blog_pk (blog_table w)) self),
     appended
       (set_content_object
          (IBlog (set_blog_pk (fresh_pk blog_pk (blog_table w)) self))
          (new_record w "create" (Some (blog_author self)) None
             ("Створено блог: " +:+ title self) None EmptyString))
       (set_blog_table
          (fun _ => blog_table w
                    ++ [set_blog_pk (fresh_pk blog_pk (blog_table w)) self])
          w)).
Proof.
  intros (Hw & Hf & Hc) Hk.
  unfold Blog.save, bind, Model.save_Blog, gets, modify, bind.
  unfold save_table. rewrite Hk. simpl.
  rewrite post_save_blog_created by exact Hc.
  unfold ret, LoggedModel.log_action.
  rewrite log_action_spec; [reflexivity | exact Hw | exact Hf].
Qed.

(** X12.  With a working store, the first save of a blog (one without a
    key) gives it a key no stored blog has, stores it as the last row, and
    writes exactly one record: a [create] by the author that points at the
    blog and names its title. *)
Theorem first_blog_save_logs_one_create (w : World) (self : Blog) :
  working w ->
  blog_pk self = None ->
  let after := Blog.save self w in
  exists saved log k,
    outcome after = Ok saved
    /\ saved = set_blog_pk k self
    /\ row_exists blog_pk k (blog_table w) = false
    /\ blog_table (world_of after) = blog_table w ++ [saved]
    /\ actionlog_table (world_of after) = actionlog_table w ++ [log]
    /\ action_type log = "create"
    /\ log_user log = Some (blog_author self)
    /\ targets BlogModel k log = true
    /\ description log = "Створено блог: " +:+ title self.
Proof.
  intros Hworking Hk. simpl. rewrite first_blog_save_spec by assumption.
  eexists _, _, (fresh_pk blog_pk (blog_table w)). simpl.
  split; [reflexivity|]. split; [reflexivity|].
  split; [apply fresh_pk_unused|].
  split; [reflexivity|]. split; [reflexivity|].
  unfold targets. simpl. rewrite !bool_decide_eq_true_2 by reflexivity.
  repeat split.
Qed.

Lemma first_blog_save_logs_one_create_witness :
  let after := Blog.save hello world0 in
  exists saved log k,
    outcome after = Ok saved
    /\ saved = set_blog_pk k hello
    /\ row_exists blog_pk k (blog_table world0) = false
    /\ blog_table (world_of after) = blog_table world0 ++ [saved]
    /\ actionlog_table (world_of after) = actionlog_table world0 ++ [log]
    /\ action_type log = "create"
    /\ log_user log = Some (blog_author hello)
    /\ targets BlogModel k log = true
    /\ description log = "Створено блог: " +:+ title hello.
Proof.
  apply (first_blog_save_logs_one_create world0 hello);
    [repeat split; constructor | reflexivity].
Defined.

Lemma post_save_comment_created w (c : Comment) :
  connected w = [] ->
  post_save_send CommentModel (IComment c) true w = (Ok tt, w).
Proof.
  intros Hc. unfold post_save_send, bind, gets. rewrite Hc. reflexivity.
Qed.

Lemma fetch_blog_found w k blog :
  List.find (has_pk blog_pk k) (blog_table w) = Some blog ->
  fetch_blog k w = (Ok blog, w).
Proof. intros H. unfold fetch_blog. rewrite H. reflexivity. Qed.

Lemma post_save_comment_updated w (c : Comment) (blog : Blog) :
  working w ->
  List.find (has_pk blog_pk (comment_blog c)) (blog_table w) = Some blog ->
  post_save_send CommentModel (IComment c) false w
  = (Ok tt,
     appended (set_content_object (IComment c)
                 (new_record w "update" (Some (comment_author c)) None
                    ("Оновлено коментар до " +:+ dquote +:+ title blog +:+ dquote)
                    None EmptyString)) w).
Proof.
  intros (Hw & Hf & Hc) Hblog. unfold post_save_send, bind, gets. rewrite Hc.
  unfold send. simpl. unfold bind, log_comment_save, bind.
  rewrite (fetch_blog_found w _ blog Hblog).
  unfold LoggedModel.log_action.
  rewrite log_action_spec by assumption. reflexivity.
Qed.

(** X13.  With a working store and the blog of the comment stored, a save
    of a comment writes one [create] record when the comment has no key yet,
    one [update] record when its row is stored, and no record at all when
    the comment brings a key that is not stored yet.  The records are by
    the author of the comment and point at the comment. *)
Theorem comment_save_logs_at_most_once (w : World) (self : Comment) (blog : Blog) :
  working w ->
  List.find (has_pk blog_pk (comment_blog self)) (blog_table w) = Some blog ->
  let after := Comment.save self w in
  exists saved,
    outcome after = Ok saved
    /\ In saved (comment_table (world_of after))
    /\ match comment_pk self with
       | None =>
           exists log,
             actionlog_table (world_of after) = actionlog_table w ++ [log]
             /\ action_type log = "create"
             /\ log_user log = Some (comment_author self)
             /\ content_type log = Some CommentModel
             /\ object_id log = (str_int <$> comment_pk saved)
             /\ description log = "Додано коментар до блогу: " +:+ title blog
       | Some k =>
           if row_exists comment_pk k (comment_table w)
           then exists log,
               actionlog_table (world_of after) = actionlog_table w ++ [log]
               /\ action_type log = "update"
               /\ log_user log = Some (comment_author self)
               /\ targets CommentModel k log = true
           else actionlog_table (world_of after) = actionlog_table w
       end.
Proof.
  intros Hworking Hblog. pose proof Hworking as (Hw & Hf & Hc).
  unfold Comment.save, bind, Model.save_Comment, gets, modify, bind.
  unfold save_table.
  destruct (comment_pk self) as [k|] eqn:Hk.
  - destruct (row_exists comment_pk k (comment_table w)) eqn:Hrow; simpl.
    + rewrite (post_save_comment_updated _ self blog); [|exact Hworking|exact Hblog].
      simpl.
      exists self. split; [reflexivity|].
      split; [apply replace_row_In; exact Hrow|].
      eexists. split; [reflexivity|].
      unfold targets. simpl. rewrite Hk. simpl.
      rewrite !bool_decide_eq_true_2 by reflexivity. repeat split.
    + rewrite post_save_comment_created by exact Hc.
      simpl.
      exists self. split; [reflexivity|].
      split; [apply in_or_app; right; left; reflexivity | reflexivity].
  - simpl. rewrite post_save_comment_created by exact Hc. simpl.
    rewrite (fetch_blog_found _ _ blog) by exact Hblog.
    unfold LoggedModel.log_action.
    rewrite log_action_spec; [|exact Hw|exact Hf]. simpl.
    eexists. split; [reflexivity|].
    split; [apply in_or_app; right; left; reflexivity|].
    eexists. split; [reflexivity|]. repeat split.
Qed.

Lemma comment_save_logs_at_most_once_witness :
  let w := world_of (Blog.save hello world0) in
  let after := Comment.save imported_comment w in
  exists saved,
    outcome after = Ok saved
    /\ In saved (comment_table (world_of after))
    /\ match comment_pk imported_comment with
       | None =>
           exists log,
             actionlog_table (world_of after) = actionlog_table w ++ [log]
             /\ action_type log = "create"
             /\ log_user log = Some (comment_author imported_comment)
             /\ content_type log = Some CommentModel
             /\ object_id log = (str_int <$> comment_pk saved)
             /\ description log = "Додано коментар до блогу: " +:+ title hello1
       | Some k =>
           if row_exists comment_pk k (comment_table w)
           then exists log,
               actionlog_table (world_of after) = actionlog_table w ++ [log]
               /\ action_type log = "update"
               /\ log_user log = Some (comment_author imported_comment)
               /\ targets CommentModel k log = true
           else actionlog_table (world_of after) = actionlog_table w
       end.
Proof.
  apply (comment_save_logs_at_most_once
           (world_of (Blog.save hello world0)) imported_comment hello1).
  - repeat split. repeat constructor.
  - reflexivity.
Defined.

(** X14.  With a working store, every save of a user writes exactly one
    record: the user is its actor and its target, and the action is
    [create] unless the user was stored before. *)
Theorem user_save_logs_once (w : World) (self : User) :
  working w ->
  let after := User.save self w in
  let action :=
    first_action (user_pk self)
      (match user_pk self with
       | Some k => row_exists user_pk k (auth_user w)
       | None => false
       end) in
  exists saved log,
    outcome after = Ok saved
    /\ username saved = username self
    /\ In saved (auth_user (world_of after))
    /\ actionlog_table (world_of after) = actionlog_table w ++ [log]
    /\ action_type log = action
    /\ log_user log = user_pk saved
    /\ content_type log = Some UserModel
    /\ object_id log = (str_int <$> user_pk saved)
    /\ description log = capitalize action +:+ " користувача: " +:+ username self.
Proof.
  intros (Hw & Hf & Hc). unfold User.save, Model.save_User, bind, gets, modify, bind.
  unfold save_table.
  destruct (user_pk self) as [k|] eqn:Hk;
    [destruct (row_exists user_pk k (auth_user w)) eqn:Hrow|]; simpl;
    unfold post_save_send, bind, gets; simpl; rewrite Hc; unfold send; simpl;
    unfold bind, log_user_save, bind; rewrite create_spec by exact Hw; simpl;
    eexists _, _; (split; [reflexivity|]); (split; [reflexivity|]).
  - split; [apply replace_row_In; exact Hrow|]. repeat split.
  - split; [apply in_or_app; right; left; reflexivity|]. repeat split.
  - split; [apply in_or_app; right; left; reflexivity|]. repeat split.
Qed.

Lemma user_save_logs_once_witness :
  let after := User.save carol world0 in
  exists saved log,
    outcome after = Ok saved
    /\ username saved = username carol
    /\ In saved (auth_user (world_of after))
    /\ actionlog_table (world_of after) = actionlog_table world0 ++ [log]
    /\ action_type log = "create"
    /\ log_user log = user_pk saved
    /\ content_type log = Some UserModel
    /\ object_id log = (str_int <$> user_pk saved)
    /\ description log = "Create" +:+ " користувача: " +:+ username carol.
Proof.
  apply (user_save_logs_once world0 carol). repeat split. constructor.
Defined.





(** ** Deleting *)

Lemma create_entities action user obj desc ip ua w :
  entities (world_of (ActionLog.objects.create action user obj desc ip ua w))
  = entities w.
Proof.
  unfold ActionLog.objects.create, bind, uuid4, timezone_now, gets,
    actionlog_write, modify, ret. simpl.
  destruct (writes_left w) as [[|n]|]; reflexivity.
Qed.

Lemma save_entities log w :
  entities (world_of (ActionLog.save log w)) = entities w.
Proof.
  unfold ActionLog.save, bind, actionlog_write, gets, modify. simpl.
  destruct (writes_left w) as [[|n]|]; simpl; try reflexivity;
    destruct (existsb _ _); reflexivity.
Qed.

(** The emitter touches no table but the record store. *)
Lemma log_action_entities user action obj desc ip ua w :
  entities (world_of (ActionLog.log_action user action obj desc ip ua w))
  = entities w.
Proof.
  unfold ActionLog.log_action, bind.
  pose proof (create_entities action user None desc ip ua w) as Hcreate.
  destruct (ActionLog.objects.create _ _ _ _ _ _ w) as [[log|e] w1];
    simpl in *; [|exact Hcreate].
  destruct obj as [o|]; [|exact Hcreate].
  pose proof (save_entities (set_content_object o log) w1) as Hsave.
  destruct (ActionLog.save _ w1) as [[[]|e] w2]; simpl in *; congruence.
Qed.

Lemma post_delete_send_entities E sender instance :
  preserves (fun w => entities w = E) (post_delete_send sender instance).
Proof.
  assert (forall action user desc,
             preserves (fun w => entities w = E)
               (ActionLog.objects.create action user None desc None EmptyString))
    as Hcreate.
  { intros action user desc w Hw. rewrite create_entities. exact Hw. }
  unfold post_delete_send, send. apply preserves_for_each.
  intros r Hin. apply filter_In in Hin as [Hin _].
  destruct Hin as [<- | [<- | []]]; simpl.
  - unfold log_blog_delete. destruct instance; try apply preserves_raise.
    apply preserves_bind; [apply Hcreate|]. intros _. apply preserves_ret.
  - unfold log_comment_delete. destruct instance; try apply preserves_raise.
    apply preserves_bind; [apply preserves_fetch_blog|]. intros blog.
    apply preserves_bind; [apply Hcreate|]. intros _. apply preserves_ret.
Qed.

Lemma post_delete_blog_ok (b : Blog) w w' :
  post_delete_send BlogModel (IBlog b) w = (Ok tt, w') ->
  exists log,
    actionlog_table w' = actionlog_table w ++ [log]
    /\ action_type log = "delete"
    /\ log_user log = Some (blog_author b)
    /\ content_type log = None /\ object_id log = None
    /\ description log = "Видалено блог: " +:+ title b.
Proof.
  unfold post_delete_send, send. simpl.
  unfold bind, log_blog_delete, bind, ActionLog.objects.create, bind, uuid4,
    timezone_now, gets, actionlog_write, modify, ret. simpl.
  destruct (writes_left w) as [[|n]|]; simpl; intros H;
    try discriminate; injection H as <-; simpl;
    eexists; (split; [reflexivity|]); repeat split.
Qed.

Lemma bind_ok {A B} (m : M A) (k : A -> M B) w b w' :
  bind m k w = (Ok b, w') ->
  exists a w1, m w = (Ok a, w1) /\ k a w1 = (Ok b, w').
Proof.
  unfold bind. destruct (m w) as [[a|e] w1]; [|discriminate].
  intros H. exists a, w1. split; [reflexivity | exact H].
Qed.

Lemma atomic_ok {A} (m : M A) w a w' :
  atomic m w = (Ok a, w') -> m w = (Ok a, w').
Proof.
  unfold atomic. destruct (m w) as [[a'|e] w1]; [auto | discriminate].
Qed.

Lemma delete_Blog_ok (self : Blog) (k : Z) (w w' : World) :
  blog_pk self = Some k ->
  Model.delete_Blog self w = (Ok tt, w') ->
  blog_table w' = delete_row blog_pk k (blog_table w)
  /\ comment_table w'
     = List.filter (fun c => negb (Z.eqb (comment_blog c) k)) (comment_table w)
  /\ auth_user w' = auth_user w
  /\ userprofile_table w' = userprofile_table w
  /\ exists log,
      last_record w' = Some log
      /\ action_type log = "delete"
      /\ log_user log = Some (blog_author self)
      /\ content_type log = None
      /\ description log = "Видалено блог: " +:+ title self.
Proof.
  intros Hk. unfold Model.delete_Blog. rewrite Hk. intros Hrun.
  apply atomic_ok in Hrun.
  apply bind_ok in Hrun as (comments & w0 & Hgets & Hrun).
  injection Hgets as <- <-.
  apply bind_ok in Hrun as ([] & w4 & Hrun & Hblog).
  apply bind_ok in Hrun as ([] & w3 & Hrun & Hrow).
  apply bind_ok in Hrun as ([] & w2 & Hrun & Hsignals).
  apply bind_ok in Hrun as ([] & w1 & Hlogs & Hcomments).
  injection Hlogs as <-. injection Hcomments as <-. injection Hrow as <-.
  match type of Hsignals with
  | for_each ?cs ?body ?w2 = _ =>
      pose proof (preserves_for_each (fun x => entities x = entities w2) cs body
                    (fun c _ => post_delete_send_entities _ CommentModel (IComment c))
                    w2 eq_refl) as Hkept
  end.
  rewrite Hsignals in Hkept. simpl in Hkept.
  match type of Hblog with
  | post_delete_send _ _ ?w4 = _ =>
      pose proof (post_delete_send_entities (entities w4) BlogModel (IBlog self)
                    w4 eq_refl) as Hlast
  end.
  rewrite Hblog in Hlast. simpl in Hlast.
  destruct (post_delete_blog_ok self _ _ Hblog) as (log & Htable & Hlog).
  unfold entities in Hkept, Hlast. simpl in Hkept, Hlast.
  injection Hkept as Hu3 Hb3 Hc3 Hp3. injection Hlast as Hu5 Hb5 Hc5 Hp5.
  split; [congruence|]. split; [congruence|].
  split; [congruence|]. split; [congruence|].
  exists log. split; [|tauto].
  unfold last_record. rewrite Htable. apply last_snoc.
Qed.

(** X16.  When [Blog.delete] succeeds it has removed exactly the blog and
    the comments on it, has left users and profiles alone, and the last
    record of the store is a [delete] record by the author that names the
    title of the blog and has no target. *)
Theorem successful_blog_delete (w : World) (self : Blog) (k : Z) :
  blog_pk self = Some k ->
  outcome (Blog.delete self w) = Ok tt ->
  let w' := world_of (Blog.delete self w) in
  blog_table w' = delete_row blog_pk k (blog_table w)
  /\ comment_table w'
     = List.filter (fun c => negb (Z.eqb (comment_blog c) k)) (comment_table w)
  /\ auth_user w' = auth_user w
  /\ userprofile_table w' = userprofile_table w
  /\ exists log,
      last_record w' = Some log
      /\ action_type log = "delete"
      /\ log_user log = Some (blog_author self)
      /\ content_type log = None
      /\ description log = "Видалено блог: " +:+ title self.
Proof.
  intros Hk. unfold Blog.delete, bind, LoggedModel.log_action.
  pose proof (log_action_entities (Some (blog_author self)) "delete"
                (Some (IBlog self)) ("Видалено блог: " +:+ title self)
                None EmptyString w) as Hlogged.
  destruct (ActionLog.log_action _ _ _ _ _ _ w) as [[written|e] w1];
    simpl in Hlogged; [|discriminate].
  destruct (Model.delete_Blog self w1) as [[[]|e] w'] eqn:Hrun; [|discriminate].
  intros _. simpl.
  unfold entities in Hlogged. injection Hlogged as Hu Hb Hc Hp.
  rewrite <- Hu, <- Hb, <- Hc, <- Hp.
  apply (delete_Blog_ok self k w1 w' Hk Hrun).
Qed.

Lemma successful_blog_delete_witness :
  let w := world_of (Blog.save hello world0) in
  let w' := world_of (Blog.delete hello1 w) in
  blog_table w' = delete_row blog_pk 1 (blog_table w)
  /\ comment_table w'
     = List.filter (fun c => negb (Z.eqb (comment_blog c) 1)) (comment_table w)
  /\ auth_user w' = auth_user w
  /\ userprofile_table w' = userprofile_table w
  /\ exists log,
      last_record w' = Some log
      /\ action_type log = "delete"
      /\ log_user log = Some (blog_author hello1)
      /\ content_type log = None
      /\ description log = "Видалено блог: " +:+ title hello1.
Proof.
  apply (successful_blog_delete (world_of (Blog.save hello world0)) hello1 1);
    reflexivity.
Defined.

Lemma user_delete_clears_the_actor_witness :
  let w := world_of (User.save carol world0) in
  let log := new_record world0 "create" (Some 2) (Some (IUser carol2))
               ("Create" +:+ " користувача: " +:+ "carol") None EmptyString in
  In log (actionlog_table w)
  /\ In (clear_user log) (actionlog_table (world_of (User.delete carol2 w))).
Proof.
  split; [left; reflexivity|].
  apply (user_delete_clears_the_actor (world_of (User.save carol world0))
           carol2 2);
    try reflexivity.
  - left; reflexivity.
  - intros m Hm. injection Hm as <-. reflexivity.
Defined.




(** ** The views that change a blog or add a comment *)

Lemma get_blog_or_404_found (pk : Z) (w : World) (blog : Blog) :
  List.find (has_pk blog_pk pk) (blog_table w) = Some blog ->
  get_blog_or_404 pk w = (Ok blog, w) /\ In blog (blog_table w)
  /\ blog_pk blog = Some pk.
Proof.
  intros Hfind. unfold get_blog_or_404. rewrite Hfind.
  apply find_some in Hfind as [Hin Hpk].
  unfold has_pk in Hpk. apply bool_decide_eq_true in Hpk. auto.
Qed.

Lemma owner_check (pk : Z) (request : HttpRequest)
  (super_dispatch : M HttpResponse) (w : World) :
  (forall blog, In blog (blog_table w) -> blog_pk blog = Some pk ->
                request_user request <> Some (blog_author blog)) ->
  let run :=
    (let* blog := get_blog_or_404 pk in
     if negb (bool_decide (Some (blog_author blog) = request_user request))
     then ret (handle_no_permission request)
     else let* r := super_dispatch in ret (answered r)) w in
  world_of run = w
  /\ (forall r, outcome run <> Ok (answered r))
  /\ (outcome run = Raise Http404
      <-> List.find (has_pk blog_pk pk) (blog_table w) = None).
Proof.
  intros Hother. unfold bind.
  destruct (List.find (has_pk blog_pk pk) (blog_table w)) as [blog|] eqn:Hfind.
  - destruct (get_blog_or_404_found pk w blog Hfind) as (-> & Hin & Hpk).
    rewrite bool_decide_eq_false_2
      by (intros Heq; apply (Hother blog Hin Hpk); symmetry; exact Heq).
    simpl. split; [reflexivity|].
    split; [|split; discriminate].
    intros r. unfold handle_no_permission.
    destruct (request_user request); discriminate.
  - unfold get_blog_or_404. rewrite Hfind. simpl.
    split; [reflexivity|]. split; [discriminate|]. split; reflexivity.
Qed.

(** X19.  [BlogUpdateView.dispatch] and [BlogDeleteView.dispatch] let only
    the author through: when no stored blog with the key of the URL has the
    requesting user as its author, the rest of the view is not run, whatever
    it is, so the world is left as it was and no response of the view is
    given; the answer is [Http404] exactly when no blog has that key. *)
Theorem blog_views_let_only_the_author_through
  (pk : Z) (request : HttpRequest) (super_dispatch : M HttpResponse) (w : World) :
  (forall blog, In blog (blog_table w) -> blog_pk blog = Some pk ->
                request_user request <> Some (blog_author blog)) ->
  let update := BlogUpdateView.dispatch pk request super_dispatch w in
  let delete := BlogDeleteView.dispatch pk request super_dispatch w in
  (world_of update = w
   /\ (forall r, outcome update <> Ok (answered r))
   /\ (outcome update = Raise Http404
       <-> List.find (has_pk blog_pk pk) (blog_table w) = None))
  /\ (world_of delete = w
      /\ (forall r, outcome delete <> Ok (answered r))
      /\ (outcome delete = Raise Http404
          <-> List.find (has_pk blog_pk pk) (blog_table w) = None)).
Proof.
  intros Hother. split.
  - exact (owner_check pk request super_dispatch w Hother).
  - exact (owner_check pk request super_dispatch w Hother).
Qed.

Lemma blog_views_let_only_the_author_through_witness :
  let update :=
    BlogUpdateView.dispatch 1 request_of_bob (BlogDeleteView.post 1)
      (world_of (Blog.save hello world0)) in
  let delete :=
    BlogDeleteView.dispatch 1 request_of_bob (BlogDeleteView.post 1)
      (world_of (Blog.save hello world0)) in
  (world_of update = world_of (Blog.save hello world0)
   /\ (forall r, outcome update <> Ok (answered r))
   /\ (outcome update = Raise Http404
       <-> List.find (has_pk blog_pk 1)
             (blog_table (world_of (Blog.save hello world0))) = None))
  /\ (world_of delete = world_of (Blog.save hello world0)
      /\ (forall r, outcome delete <> Ok (answered r))
      /\ (outcome delete = Raise Http404
          <-> List.find (has_pk blog_pk 1)
                (blog_table (world_of (Blog.save hello world0))) = None)).
Proof.
  apply (blog_views_let_only_the_author_through 1 request_of_bob
           (BlogDeleteView.post 1) (world_of (Blog.save hello world0))).
  intros blog [<-|[]] _. discriminate.
Defined.

(** X20.  A [POST] to [BlogDeleteView] by the author of the stored blog:
    when it is answered, the answer is the redirect, the row of the blog and
    the comments on it are gone, and users and profiles are as before. *)
Theorem author_deletes_the_blog
  (pk : Z) (request : HttpRequest) (blog : Blog) (w : World) (a : Answer) :
  List.find (has_pk blog_pk pk) (blog_table w) = Some blog ->
  request_user request = Some (blog_author blog) ->
  let run := BlogDeleteView.dispatch pk request (BlogDeleteView.post pk) w in
  outcome run = Ok a ->
  a = answered {| status_code := 302 |}
  /\ blog_table (world_of run) = delete_row blog_pk pk (blog_table w)
  /\ comment_table (world_of run)
     = List.filter (fun c => negb (Z.eqb (comment_blog c) pk)) (comment_table w)
  /\ auth_user (world_of run) = auth_user w
  /\ userprofile_table (world_of run) = userprofile_table w.
Proof.
  intros Hfind Hauthor.
  destruct (get_blog_or_404_found pk w blog Hfind) as (Hget & _ & Hpk).
  unfold BlogDeleteView.dispatch, BlogDeleteView.post, bind.
  rewrite Hget, Hauthor, bool_decide_eq_true_2 by reflexivity.
  simpl. rewrite Hget.
  unfold Blog.delete, bind, LoggedModel.log_action.
  destruct (ActionLog.log_action _ _ _ _ _ _ w) as [[log|e] w1] eqn:Hlog;
    [|discriminate].
  destruct (Model.delete_Blog blog w1) as [[[]|e] w2] eqn:Hdel; [|discriminate].
  simpl. intros Ha. injection Ha as <-.
  pose proof (log_action_entities (Some (blog_author blog)) "delete"
                (Some (IBlog blog)) ("Видалено блог: " +:+ title blog) None
                EmptyString w) as Hent.
  rewrite Hlog in Hent. simpl in Hent.
  destruct (delete_Blog_ok blog pk w1 w2 Hpk Hdel) as (Hb & Hc & Hu & Hp & _).
  unfold entities in Hent. injection Hent as Hu1 Hb1 Hc1 Hp1.
  split; [reflexivity|]. repeat split; congruence.
Qed.

Lemma author_deletes_the_blog_witness :
  let w := world_of (Blog.save hello world0) in
  let run := BlogDeleteView.dispatch 1 plain_request (BlogDeleteView.post 1) w in
  blog_table (world_of run) = [].
Proof.
  assert (H := author_deletes_the_blog 1 plain_request hello1
                 (world_of (Blog.save hello world0))
                 (answered {| status_code := 302 |})
                 eq_refl eq_refl eq_refl).
  destruct H as (_ & H & _). exact H.
Defined.






(** ** The logging hook of the views *)

Lemma log_user_action_only_logs_an_error self request response w :
  (forall get_object, view_get_object self = Some get_object ->
                      forall v, world_of (get_object v) = v) ->
  exists e,
    ActionLoggingMixin.log_user_action self request response w
    = (Ok tt, add_logger_error e w).
Proof.
  intros Hreads. unfold ActionLoggingMixin.log_user_action, try_except, bind.
  destruct (view_object self) as [[o|]|]; simpl; try (eexists; reflexivity).
  destruct (view_get_object self) as [get_object|]; simpl;
    [|eexists; reflexivity].
  specialize (Hreads get_object eq_refl w). unfold try_except.
  destruct (get_object w) as [[[o|]|e] w']; simpl in *; subst w';
    eexists; reflexivity.
Qed.

(** X23.  [ActionLoggingMixin.dispatch] around a view whose [get_object]
    only reads: it answers, or raises, exactly as the view it wraps does,
    and it leaves the record store, the users, blogs, comments and profiles
    as that view left them.  No request is ever recorded: whenever the hook
    runs (the view answered, logging is on, the user is signed in) it ends
    in one logged error. *)
Theorem logging_dispatch_is_transparent
  (self : View) (super_dispatch : M HttpResponse) (request : HttpRequest)
  (w : World) :
  (forall get_object, view_get_object self = Some get_object ->
                      forall v, world_of (get_object v) = v) ->
  let run := ActionLoggingMixin.dispatch self super_dispatch request w in
  let inner := super_dispatch w in
  outcome run = outcome inner
  /\ actionlog_table (world_of run) = actionlog_table (world_of inner)
  /\ entities (world_of run) = entities (world_of inner)
  /\ (forall response,
        outcome inner = Ok response ->
        view_log_action self = true ->
        request_user request <> None ->
        exists e,
          logger_errors (world_of run) = logger_errors (world_of inner) ++ [e]).
Proof.
  intros Hreads. unfold ActionLoggingMixin.dispatch, bind.
  destruct (super_dispatch w) as [[response|e] w1]; simpl;
    [|repeat split; discriminate].
  destruct (log_user_action_only_logs_an_error self request response w1 Hreads)
    as [e He].
  destruct (view_log_action self); simpl.
  - destruct (bool_decide (request_user request <> None)) eqn:Huser; simpl.
    + rewrite He. simpl. repeat split. intros _ _ _ _. exists e. reflexivity.
    + apply bool_decide_eq_false in Huser. repeat split.
      intros _ _ _ Hsigned. contradiction.
  - repeat split. discriminate.
Qed.

Lemma logging_dispatch_is_transparent_witness :
  let run :=
    ActionLoggingMixin.dispatch blog_detail_view
      (ret {| status_code := 200 |}) plain_request world0 in
  outcome run = Ok {| status_code := 200 |}
  /\ actionlog_table (world_of run) = actionlog_table world0
  /\ entities (world_of run) = entities world0
  /\ (forall response,
        Ok {| status_code := 200 |} = Ok response ->
        view_log_action blog_detail_view = true ->
        request_user plain_request <> None ->
        exists e, logger_errors (world_of run) = logger_errors world0 ++ [e]).
Proof.
  apply (logging_dispatch_is_transparent blog_detail_view
           (ret {| status_code := 200 |}) plain_request world0).
  intros get_object Hget. discriminate Hget.
Defined.

(** ** The page size *)

(** X24.  When [show=all] is not allowed and the default page size is set
    and within the maximum, [get_paginate_by] gives a page size for every
    request, and never one above the maximum. *)
Theorem page_size_is_bounded
  (self : EnhancedPaginationMixin.t) (request : HttpRequest) (d : Z) :
  EnhancedPaginationMixin.allow_all self = false ->
  EnhancedPaginationMixin.paginate_by self = Some d ->
  d <= EnhancedPaginationMixin.max_per_page self ->
  exists n,
    EnhancedPaginationMixin.get_paginate_by self request = Ok (Some n)
    /\ n <= EnhancedPaginationMixin.max_per_page self.
Proof.
  intros Hall Hd Hle. unfold EnhancedPaginationMixin.get_paginate_by.
  rewrite Hall, Hd. simpl.
  destruct (QueryDict_get (GET request) "per_page") as [value|]; simpl.
  - destruct (int_of_str value) as [n|]; simpl.
    + destruct (Z.gtb_spec n (EnhancedPaginationMixin.max_per_page self)).
      * eexists. split; [reflexivity | lia].
      * eexists. split; [reflexivity | lia].
    + eexists. split; [reflexivity | exact Hle].
  - destruct (Z.gtb_spec d (EnhancedPaginationMixin.max_per_page self)).
    + eexists. split; [reflexivity | lia].
    + eexists. split; [reflexivity | lia].
Qed.

Lemma page_size_is_bounded_witness :
  exists n,
    EnhancedPaginationMixin.get_paginate_by EnhancedPaginationMixin.defaults
      request_page_abc = Ok (Some n)
    /\ n <= 100.
Proof.
  apply (page_size_is_bounded EnhancedPaginationMixin.defaults request_page_abc 10);
    [reflexivity | reflexivity | simpl; lia].
Defined.

(** ** Deleting a comment or a profile *)

(** X25.  With a working store and the blog of the comment stored,
    [Comment.delete] removes the row of the comment and every record that
    points at the comment, and leaves one new record: a [delete] by the
    author of the comment that names the title of the blog and points at
    nothing. *)
Theorem comment_delete_logs_once
  (w : World) (self : Comment) (k : Z) (blog : Blog) :
  comment_pk self = Some k ->
  writes_left w = None ->
  List.find (has_pk blog_pk (comment_blog self)) (blog_table w) = Some blog ->
  let after := Comment.delete self w in
  outcome after = Ok tt
  /\ comment_table (world_of after) = delete_row comment_pk k (comment_table w)
  /\ blog_table (world_of after) = blog_table w
  /\ exists log,
      actionlog_table (world_of after)
      = List.filter (fun l => negb (targets CommentModel k l)) (actionlog_table w)
        ++ [log]
      /\ action_type log = "delete"
      /\ log_user log = Some (comment_author self)
      /\ content_type log = None /\ object_id log = None
      /\ description log
         = "Видалено коментар до " +:+ dquote +:+ title blog +:+ dquote.
Proof.
  intros Hk Hw Hblog.
  unfold Comment.delete, Model.delete_Comment. rewrite Hk.
  unfold atomic, bind, modify, post_delete_send, send. simpl.
  unfold bind, log_comment_delete, bind.
  rewrite (fetch_blog_found _ _ blog) by exact Hblog.
  rewrite create_spec by exact Hw. simpl.
  split; [reflexivity|]. split; [reflexivity|]. split; [reflexivity|].
  eexists. split; [reflexivity|]. repeat split.
Qed.

Lemma comment_delete_logs_once_witness :
  let w := world_of (Comment.save comment0 (world_of (Blog.save hello world0))) in
  let after := Comment.delete (set_comment_pk 1 comment0) w in
  outcome after = Ok tt
  /\ comment_table (world_of after) = delete_row comment_pk 1 (comment_table w)
  /\ blog_table (world_of after) = blog_table w
  /\ exists log,
      actionlog_table (world_of after)
      = List.filter (fun l => negb (targets CommentModel 1 l)) (actionlog_table w)
        ++ [log]
      /\ action_type log = "delete"
      /\ log_user log = Some (comment_author (set_comment_pk 1 comment0))
      /\ content_type log = None /\ object_id log = None
      /\ description log
         = "Видалено коментар до " +:+ dquote +:+ title hello1 +:+ dquote.
Proof.
  apply (comment_delete_logs_once
           (world_of (Comment.save comment0 (world_of (Blog.save hello world0))))
           (set_comment_pk 1 comment0) 1 hello1); reflexivity.
Defined.

(** X26.  [UserProfile.delete] of a profile with a key is not logged: no
    receiver listens to [post_delete] of a profile, so the call inserts no
    record; it removes the row of the profile and every record that points
    at the profile, and leaves users, blogs and comments alone. *)
Theorem profile_delete_is_not_logged (w : World) (self : UserProfile) (k : Z) :
  profile_pk self = Some k ->
  let after := UserProfile.delete self w in
  outcome after = Ok tt
  /\ actionlog_table (world_of after)
     = List.filter (fun l => negb (targets UserProfileModel k l)) (actionlog_table w)
  /\ userprofile_table (world_of after)
     = delete_row profile_pk k (userprofile_table w)
  /\ auth_user (world_of after) = auth_user w
  /\ blog_table (world_of after) = blog_table w
  /\ comment_table (world_of after) = comment_table w.
Proof.
  intros Hk. unfold UserProfile.delete, Model.delete_UserProfile. rewrite Hk.
  unfold atomic, bind, modify, post_delete_send, send. simpl.
  repeat split.
Qed.

Lemma profile_delete_is_not_logged_witness :
  let w := world_of (UserProfile.save profile0 world0) in
  let after := UserProfile.delete profile1 w in
  outcome after = Ok tt
  /\ actionlog_table (world_of after)
     = List.filter (fun l => negb (targets UserProfileModel 1 l)) (actionlog_table w)
  /\ userprofile_table (world_of after)
     = delete_row profile_pk 1 (userprofile_table w)
  /\ auth_user (world_of after) = auth_user w
  /\ blog_table (world_of after) = blog_table w
  /\ comment_table (world_of after) = comment_table w.
Proof.
  apply (profile_delete_is_not_logged (world_of (UserProfile.save profile0 world0))
           profile1 1).
  reflexivity.
Defined.
